(** * The temporary-link mailer of nealblim.com ([app/config/mail.js])

    A shallow embedding of [sendActivationEmail], [sendResetEmail],
    [composeTemporaryLinkEmail] and [sendEmail], and the properties of the
    temporary-link workflow proved about it.

    The module talks to four collaborators: the Express renderer
    ([app.render]), the Sequelize models [User] and [TemporaryURL], and the
    nodemailer [transporter].  They are not part of the module; here each of
    them is an oracle of the environment [Env], and every call to one of them,
    every [console.log] and every invocation of the caller's callback is
    recorded as an [Event].  What a run of the module does is the list of
    events it leaves behind.

    The collaborators answer the way their interfaces say: the renderer and
    the transport through the callback they are given, the two models through
    the promise they return.  The caller's callback returns normally. *)

From Stdlib Require Import ZArith List String Bool DecimalString.
Import ListNotations.

Local Open Scope string_scope.
Local Open Scope Z_scope.

(** ** JavaScript values *)

(** The values that flow through the module: primitives and plain data
    objects.  An object is the list of its own properties in the order the
    literal writes them.  Numbers are the integer-valued ones: every number
    the module computes is a clock reading in milliseconds plus a whole number
    of hours, far below 2^53, where the arithmetic of doubles is exact. *)
#[warnings="-register-all"]
Inductive value : Type :=
| JUndefined
| JNull
| JBool (b : bool)
| JNum (n : Z)
| JStr (s : string)
| JObj (props : list (string * value)).

Definition object : Type := list (string * value).

(** [if (v)] *)
Definition truthy (v : value) : bool :=
  match v with
  | JUndefined | JNull => false
  | JBool b => b
  | JNum n => negb (n =? 0)
  | JStr s => negb (s =? "")%string
  | JObj _ => true
  end.

(** [v == null] *)
Definition eq_null (v : value) : bool :=
  match v with
  | JUndefined | JNull => true
  | _ => false
  end.

(** The own property [k] of an object, if it has one. *)
Fixpoint own (o : object) (k : string) : option value :=
  match o with
  | [] => None
  | (k', v) :: o' => if (k' =? k)%string then Some v else own o' k
  end.

(** [o.k] on an object: a missing property reads as [undefined]. *)
Definition prop (o : object) (k : string) : value :=
  match own o k with
  | Some v => v
  | None => JUndefined
  end.

(** String conversion, as [+] with a string operand and [toString()] do it on
    primitives and plain objects. *)
Definition ToString (v : value) : string :=
  match v with
  | JUndefined => "undefined"
  | JNull => "null"
  | JBool true => "true"
  | JBool false => "false"
  | JNum n => NilZero.string_of_int (Z.to_int n)
  | JStr s => s
  | JObj _ => "[object Object]"
  end.

Definition ReferenceError (msg : string) : value :=
  JObj [("name", JStr "ReferenceError"); ("message", JStr msg)].

Definition TypeError (msg : string) : value :=
  JObj [("name", JStr "TypeError"); ("message", JStr msg)].

(** ** Events and the effect monad *)

(** The context object handed to the renderer.  Both callers build it with
    the same six keys. *)
Record RenderInfo : Type := {
  template : string;
  timespan : Z;
  layout : bool;
  page_title : string;
  url : value;
  id : value
}.

Inductive Event : Type :=
| EFindOne (query : value)                       (* User.findOne(query) *)
| ERender (view : string) (options : RenderInfo) (* app.render(view, options, _) *)
| ECreate (values : value)                       (* TemporaryURL.create(values) *)
| ESendMail (email_info : value)                 (* transporter.sendMail(email_info, _) *)
| ELog (v : value)                               (* console.log(v) *)
| EDone (args : list value)                      (* done(...args), the caller's callback *)
| EUnhandledRejection (e : value)                (* a rejected promise nobody handles *)
| EUncaught (e : value).                         (* an exception nobody catches *)

Inductive Completion (A : Type) : Type :=
| Normal (a : A)
| Throw (e : value).
Arguments Normal {A} a.
Arguments Throw {A} e.

(** A piece of code completes normally or throws, records the events of the
    current chain of callbacks in [now], and leaves in [later] what a
    callback it has handed to the transport does once the transport is
    finished, after the current chain has run to its end. *)
Record M (A : Type) : Type := mkM {
  outcome : Completion A;
  now : list Event;
  later : list Event
}.
Arguments mkM {A} outcome now later.
Arguments outcome {A} m.
Arguments now {A} m.
Arguments later {A} m.

Definition ret {A} (a : A) : M A := mkM (Normal a) [] [].

Definition throw {A} (e : value) : M A := mkM (Throw e) [] [].

Definition bind {A B} (m : M A) (f : A -> M B) : M B :=
  match outcome m with
  | Normal a =>
      let r := f a in
      mkM (outcome r) (now m ++ now r) (later m ++ later r)
  | Throw e => mkM (Throw e) (now m) (later m)
  end.

Definition emit (ev : Event) : M unit := mkM (Normal tt) [ev] [].

(** [try { m } catch (e) { h(e) }] *)
Definition try_catch {A} (m : M A) (h : value -> M A) : M A :=
  match outcome m with
  | Normal a => m
  | Throw e =>
      let r := h e in
      mkM (outcome r) (now m ++ now r) (later m ++ later r)
  end.

(** A callback that runs on its own, after the current chain: its events
    come later, and an exception it throws has nobody to catch it. *)
Definition detached (m : M unit) : M unit :=
  match outcome m with
  | Normal _ => mkM (Normal tt) [] (now m ++ later m)
  | Throw e => mkM (Normal tt) [] (now m ++ [EUncaught e] ++ later m)
  end.

Declare Scope js_scope.
Delimit Scope js_scope with js.
Notation "x <- m ;; k" := (bind m (fun x => k))
  (at level 61, m at next level, right associativity) : js_scope.
Notation "m ;; k" := (bind m (fun _ => k))
  (at level 61, right associativity) : js_scope.
Local Open Scope js_scope.

(** [v.k] on any value: reading a property of [undefined] or [null] throws;
    a primitive has none of the properties this module reads
    ([login_key], [user_active], [last_login], [id], [email_info],
    [response]). *)
Definition member (v : value) (k : string) : value :=
  match v with
  | JObj o => prop o k
  | _ => JUndefined
  end.

Definition get (v : value) (k : string) : M value :=
  match v with
  | JUndefined | JNull =>
      throw (TypeError ("Cannot read property '" ++ k ++ "' of " ++ ToString v))
  | _ => ret (member v k)
  end.

(** ** Promises *)

Inductive Settled : Type :=
| Resolved (v : value)
| Rejected (e : value).

(** A promise chain whose last promise rejects with nobody listening. *)
Definition unhandled (m : M unit) : M unit :=
  try_catch m (fun e => emit (EUnhandledRejection e)).

(** [p.then(f)] *)
Definition promise_then (p : Settled) (f : value -> M unit) : M unit :=
  unhandled
    match p with
    | Resolved v => f v
    | Rejected e => throw e
    end.

(** [p.then(f).catch(g)]: [g] receives the rejection of [p] and whatever [f]
    throws. *)
Definition promise_then_catch (p : Settled) (f g : value -> M unit) : M unit :=
  unhandled
    (try_catch
       match p with
       | Resolved v => f v
       | Rejected e => throw e
       end
       g).

(** ** The environment *)

Record Env : Type := {
  (* app.render(view, options, callback): the (err, HTML) the callback gets *)
  app_render : string -> RenderInfo -> value * value;
  (* Date.now() *)
  Date_now : Z;
  (* User.findOne(query) *)
  User_findOne : value -> Settled;
  (* TemporaryURL.create(values) *)
  TemporaryURL_create : value -> Settled;
  (* transporter.sendMail(email_info, callback): the (err, info) the callback gets *)
  transporter_sendMail : value -> value * value
}.

(** The caller's callback, as the module sees it: a function it calls.  Here
    it records the arguments it is called with. *)
Definition report (args : list value) : M unit := emit (EDone args).

(** Everything a run leaves behind, in order. *)
Definition trace (m : M unit) : list Event :=
  now m ++
  match outcome m with
  | Normal _ => []
  | Throw e => [EUncaught e]
  end ++ later m.

(** ** The module *)

Definition adminEmailAddress : string := "no-reply@nealblim.com".

(** ['emails/' + renderInfo.template + '_email'] *)
Definition view_of (renderInfo : RenderInfo) : string :=
  "emails/" ++ template renderInfo ++ "_email".

Section Mail.

Variable env : Env.

Definition sendEmail (email_info : value) : M unit :=
  emit (ESendMail email_info) ;;
  detached
    (let '(err, info) := transporter_sendMail env email_info in
     if truthy err then emit (ELog err)
     else
       response <- get info "response" ;;
       emit (ELog (JStr ("Email sent: " ++ ToString response)))).

(** The object literal handed to [TemporaryURL.create]. *)
Definition temporaryURL_values (renderInfo : RenderInfo) (emailInfo : object)
    (HTML : value) : value :=
  JObj [
    ("id", id renderInfo);
    ("expiration_time", JNum (Date_now env + timespan renderInfo * 3600000));
    ("url", url renderInfo);
    ("email_info", JObj [
       ("from", if eq_null (prop emailInfo "from")
                then JStr adminEmailAddress
                else prop emailInfo "from");
       ("to", prop emailInfo "to");
       ("cc", if eq_null (prop emailInfo "cc")
              then JBool false
              else prop emailInfo "cc");
       ("bcc", if eq_null (prop emailInfo "bcc")
               then JBool false
               else prop emailInfo "bcc");
       ("subject", prop emailInfo "subject");
       ("html", JStr (ToString HTML));
       ("text", prop emailInfo "text")
     ])
  ].

Definition composeTemporaryLinkEmail (renderInfo : RenderInfo)
    (emailInfo : object) (done : list value -> M unit) : M unit :=
  let view := view_of renderInfo in
  emit (ERender view renderInfo) ;;
  let '(err, HTML) := app_render env view renderInfo in
  if truthy err then done [err]
  else if negb (truthy HTML) then done [JNull; JBool false]
  else if truthy HTML then
    let values := temporaryURL_values renderInfo emailInfo HTML in
    emit (ECreate values) ;;
    promise_then_catch (TemporaryURL_create env values)
      (fun newURL =>
         if truthy newURL then
           email_info <- get newURL "email_info" ;;
           sendEmail email_info ;;
           done [JNull; newURL]
         else ret tt)
      (fun err => done [JNull; JBool false; JObj [("message", err)]])
  else ret tt.

(** The callback both exported functions pass to
    [composeTemporaryLinkEmail]: [(err, email) => { ... }].  It has two
    parameters; further arguments are not bound to anything. *)
Definition forward (done : list value -> M unit) (args : list value) : M unit :=
  let err := nth 0 args JUndefined in
  let email := nth 1 args JUndefined in
  if truthy err then done [err]
  else if negb (truthy email) then done [err; JBool false]
  else if truthy email then done [JNull; email]
  else ret tt.

Definition sendActivationEmail (info : object) (done : list value -> M unit)
    : M unit :=
  composeTemporaryLinkEmail
    {| template := "activate";
       timespan := 24;
       layout := false;
       page_title := "Please confirm your account, " ++ ToString (prop info "userName");
       url := prop info "url";
       id := prop info "id" |}
    [ ("to", prop info "recipientAddress");
      ("subject", JStr ("Welcome to nealblim.com " ++ ToString (prop info "userName") ++ "!"));
      ("text", JStr "TO DO") ]
    (forward done).

Definition findOne_query (info : object) : value :=
  JObj [("where", JObj [("login_key", prop info "recipientAddress")])].

Definition sendResetEmail (info : object) (done : list value -> M unit)
    : M unit :=
  emit (EFindOne (findOne_query info)) ;;
  promise_then (User_findOne env (findOne_query info))
    (fun user =>
       if negb (truthy user) then
         (* done(err, false, {...}): no binding of err is in scope here, and
            the arguments are evaluated from the left *)
         throw (ReferenceError "err is not defined")
       else if truthy user then
         user_active <- get user "user_active" ;;
         activated <- (if truthy user_active then ret user_active
                       else get user "last_login") ;;
         if negb (truthy activated) then
           done [JNull; JBool false;
                 JObj [("message", JStr "You must activate your account first.")]]
         else
           user_id <- get user "id" ;;
           composeTemporaryLinkEmail
             {| template := "reset";
                timespan := 2;
                layout := false;
                page_title := "How to Reset Your Password";
                url := prop info "url";
                id := user_id |}
             [ ("to", prop info "recipientAddress");
               ("subject", JStr "nealblim.com -- Reset your Password");
               ("text", JStr "TO DO") ]
             (forward done)
       else ret tt).

End Mail.

(** ** The literals the exported functions build *)

Definition activation_renderInfo (info : object) : RenderInfo :=
  {| template := "activate";
     timespan := 24;
     layout := false;
     page_title := "Please confirm your account, " ++ ToString (prop info "userName");
     url := prop info "url";
     id := prop info "id" |}.

Definition activation_emailInfo (info : object) : object :=
  [ ("to", prop info "recipientAddress");
    ("subject", JStr ("Welcome to nealblim.com " ++ ToString (prop info "userName") ++ "!"));
    ("text", JStr "TO DO") ].

Definition reset_renderInfo (info : object) (user : value) : RenderInfo :=
  {| template := "reset";
     timespan := 2;
     layout := false;
     page_title := "How to Reset Your Password";
     url := prop info "url";
     id := member user "id" |}.

Definition reset_emailInfo (info : object) : object :=
  [ ("to", prop info "recipientAddress");
    ("subject", JStr "nealblim.com -- Reset your Password");
    ("text", JStr "TO DO") ].

(** [user.user_active || user.last_login] *)
Definition activated (user : value) : value :=
  if truthy (member user "user_active") then member user "user_active"
  else member user "last_login".

(** What the callback [(err, email) => ...] of the exported functions hands
    to [done], for the arguments it is called with. *)
Definition forwarded (args : list value) : list value :=
  let err := nth 0 args JUndefined in
  let email := nth 1 args JUndefined in
  if truthy err then [err]
  else if truthy email then [JNull; email]
  else [err; JBool false].

(** ** Observations on traces *)

Definition is_done (ev : Event) : bool :=
  match ev with EDone _ => true | _ => false end.

Definition is_sendMail (ev : Event) : bool :=
  match ev with ESendMail _ => true | _ => false end.

(** What the completion of a send can leave behind: a line on the console,
    or an exception of the logging callback itself. *)
Definition is_console (ev : Event) : bool :=
  match ev with ELog _ | EUncaught _ => true | _ => false end.

(** The run of [composeTemporaryLinkEmail] with a callback that delivers its
    arguments, rearranged by [h], to the caller: one case for each answer of
    the renderer and of the store. *)
Inductive Composed (env : Env) (renderInfo : RenderInfo) (emailInfo : object)
    (h : list value -> list value) : M unit -> Prop :=
| RenderError err HTML :
    app_render env (view_of renderInfo) renderInfo = (err, HTML) ->
    truthy err = true ->
    Composed env renderInfo emailInfo h
      (mkM (Normal tt)
         [ERender (view_of renderInfo) renderInfo; EDone (h [err])] [])
| RenderEmpty err HTML :
    app_render env (view_of renderInfo) renderInfo = (err, HTML) ->
    truthy err = false ->
    truthy HTML = false ->
    Composed env renderInfo emailInfo h
      (mkM (Normal tt)
         [ERender (view_of renderInfo) renderInfo;
          EDone (h [JNull; JBool false])] [])
| CreateRejected err HTML e :
    app_render env (view_of renderInfo) renderInfo = (err, HTML) ->
    truthy err = false ->
    truthy HTML = true ->
    TemporaryURL_create env (temporaryURL_values env renderInfo emailInfo HTML)
      = Rejected e ->
    Composed env renderInfo emailInfo h
      (mkM (Normal tt)
         [ERender (view_of renderInfo) renderInfo;
          ECreate (temporaryURL_values env renderInfo emailInfo HTML);
          EDone (h [JNull; JBool false; JObj [("message", e)]])] [])
| CreateNoRow err HTML row :
    app_render env (view_of renderInfo) renderInfo = (err, HTML) ->
    truthy err = false ->
    truthy HTML = true ->
    TemporaryURL_create env (temporaryURL_values env renderInfo emailInfo HTML)
      = Resolved row ->
    truthy row = false ->
    Composed env renderInfo emailInfo h
      (mkM (Normal tt)
         [ERender (view_of renderInfo) renderInfo;
          ECreate (temporaryURL_values env renderInfo emailInfo HTML)] [])
| CreateRow err HTML row :
    app_render env (view_of renderInfo) renderInfo = (err, HTML) ->
    truthy err = false ->
    truthy HTML = true ->
    TemporaryURL_create env (temporaryURL_values env renderInfo emailInfo HTML)
      = Resolved row ->
    truthy row = true ->
    Composed env renderInfo emailInfo h
      (mkM (Normal tt)
         [ERender (view_of renderInfo) renderInfo;
          ECreate (temporaryURL_values env renderInfo emailInfo HTML);
          ESendMail (member row "email_info");
          EDone (h [JNull; row])]
         (later (sendEmail env (member row "email_info")))).

(** ** Sample runs *)

Module Sample.

(** The activation request of the specification's scenario. *)
Definition ann : object :=
  [ ("recipientAddress", JStr "a@x.com"); ("userName", JStr "Ann");
    ("id", JNum 7); ("url", JStr "/act/abc") ].

Definition ann_user : value :=
  JObj [ ("id", JNum 7); ("login_key", JStr "a@x.com");
         ("user_active", JBool true); ("last_login", JNull) ].

(** A registered user who never activated the account and never logged in. *)
Definition dormant_user : value :=
  JObj [ ("id", JNum 8); ("login_key", JStr "a@x.com");
         ("user_active", JBool false); ("last_login", JNull) ].

Definition render_ok (view : string) (options : RenderInfo) : value * value :=
  (JNull, JStr "<html>...</html>").

Definition render_empty (view : string) (options : RenderInfo) : value * value :=
  (JNull, JStr "").

Definition render_fails (view : string) (options : RenderInfo) : value * value :=
  (JStr "Failed to lookup view", JUndefined).

Definition delivered (email_info : value) : value * value :=
  (JNull, JObj [("response", JStr "250 OK")]).

Definition bounced (email_info : value) : value * value :=
  (JStr "sendmail exited with code 1", JUndefined).

(** Everything works; the store hands back the row it was given. *)
Definition all_well : Env :=
  {| app_render := render_ok;
     Date_now := 1596067200000;
     User_findOne := fun _ => Resolved ann_user;
     TemporaryURL_create := fun values => Resolved values;
     transporter_sendMail := delivered |}.

(** The row is stored but the transport cannot send. *)
Definition send_fails : Env :=
  {| app_render := render_ok;
     Date_now := 1596067200000;
     User_findOne := fun _ => Resolved ann_user;
     TemporaryURL_create := fun values => Resolved values;
     transporter_sendMail := bounced |}.

Definition renderer_empty : Env :=
  {| app_render := render_empty;
     Date_now := 1596067200000;
     User_findOne := fun _ => Resolved ann_user;
     TemporaryURL_create := fun values => Resolved values;
     transporter_sendMail := delivered |}.

Definition renderer_fails : Env :=
  {| app_render := render_fails;
     Date_now := 1596067200000;
     User_findOne := fun _ => Resolved ann_user;
     TemporaryURL_create := fun values => Resolved values;
     transporter_sendMail := delivered |}.

Definition store_rejects : Env :=
  {| app_render := render_ok;
     Date_now := 1596067200000;
     User_findOne := fun _ => Resolved ann_user;
     TemporaryURL_create := fun _ => Rejected (JStr "Validation error");
     transporter_sendMail := delivered |}.

Definition store_resolves_null : Env :=
  {| app_render := render_ok;
     Date_now := 1596067200000;
     User_findOne := fun _ => Resolved ann_user;
     TemporaryURL_create := fun _ => Resolved JNull;
     transporter_sendMail := delivered |}.

Definition no_such_user : Env :=
  {| app_render := render_ok;
     Date_now := 1596067200000;
     User_findOne := fun _ => Resolved JNull;
     TemporaryURL_create := fun values => Resolved values;
     transporter_sendMail := delivered |}.

Definition user_dormant : Env :=
  {| app_render := render_ok;
     Date_now := 1596067200000;
     User_findOne := fun _ => Resolved dormant_user;
     TemporaryURL_create := fun values => Resolved values;
     transporter_sendMail := delivered |}.

(** A call of [composeTemporaryLinkEmail] whose caller names the sender and
    a copy recipient. *)
Definition plain_renderInfo : RenderInfo :=
  {| template := "activate"; timespan := 24; layout := false;
     page_title := "Hello"; url := JStr "/act/abc"; id := JNum 7 |}.

Definition emailInfo_bare : object :=
  [ ("to", JStr "a@x.com"); ("subject", JStr "Hello"); ("text", JStr "TO DO") ].

Definition emailInfo_full : object :=
  [ ("from", JStr "admin@nealblim.com"); ("to", JStr "a@x.com");
    ("cc", JStr "c@x.com"); ("bcc", JStr "b@x.com");
    ("subject", JStr "Hello"); ("text", JStr "TO DO") ].

(** A user who never activated the account but has logged in before. *)
Definition returning_user : value :=
  JObj [ ("id", JNum 9); ("login_key", JStr "a@x.com");
         ("user_active", JBool false);
         ("last_login", JStr "2020-07-29T08:00:00.000Z") ].

Definition user_returning : Env :=
  {| app_render := render_ok;
     Date_now := 1596067200000;
     User_findOne := fun _ => Resolved returning_user;
     TemporaryURL_create := fun values => Resolved values;
     transporter_sendMail := delivered |}.

(** The user store cannot be reached. *)
Definition lookup_rejects : Env :=
  {| app_render := render_ok;
     Date_now := 1596067200000;
     User_findOne := fun _ => Rejected (JStr "connect ECONNREFUSED");
     TemporaryURL_create := fun values => Resolved values;
     transporter_sendMail := delivered |}.

(** A request that names a sender, copy recipients and an id of its own. *)
Definition ann_with_sender : object :=
  [ ("recipientAddress", JStr "a@x.com"); ("userName", JStr "Ann");
    ("id", JNum 1); ("url", JStr "/act/abc");
    ("from", JStr "ann@x.com"); ("cc", JStr "c@x.com");
    ("bcc", JStr "b@x.com") ].

(** A callback of the caller that notes its arguments and then fails. *)
Definition faulty_callback (args : list value) : M unit :=
  bind (report args) (fun _ => throw (JStr "callback failed")).

End Sample.

(** ** Further observations *)

Definition is_render (ev : Event) : bool :=
  match ev with ERender _ _ => true | _ => false end.

Definition is_create (ev : Event) : bool :=
  match ev with ECreate _ => true | _ => false end.

(** Everything but the console: the calls of the collaborators and of the
    caller's callback, and the failures nobody handles. *)
Definition audible (ev : Event) : bool :=
  match ev with ELog _ | EUncaught _ => false | _ => true end.

(** The same environment with another mail transport. *)
Definition with_transport (env : Env)
    (sendMail : value -> value * value) : Env :=
  {| app_render := app_render env;
     Date_now := Date_now env;
     User_findOne := User_findOne env;
     TemporaryURL_create := TemporaryURL_create env;
     transporter_sendMail := sendMail |}.

(** ** Basic facts *)

Lemma bind_emit (ev : Event) (k : M unit) :
  (emit ev ;; k) = mkM (outcome k) (ev :: now k) (later k).
Proof. reflexivity. Qed.

Lemma bind_ret {A B} (a : A) (k : A -> M B) :
  (x <- ret a ;; k x) = k a.
Proof. unfold bind. cbn. destruct (k a); reflexivity. Qed.

Lemma then_catch_resolved (v : value) (f g : value -> M unit) :
  promise_then_catch (Resolved v) f g = unhandled (try_catch (f v) g).
Proof. reflexivity. Qed.

Lemma then_catch_rejected (e : value) (f g : value -> M unit) :
  promise_then_catch (Rejected e) f g = unhandled (g e).
Proof.
  unfold promise_then_catch, try_catch, throw. cbn.
  destruct (g e); reflexivity.
Qed.

Lemma unhandled_normal (m : M unit) :
  outcome m = Normal tt -> unhandled m = m.
Proof.
  intros H. unfold unhandled, try_catch. rewrite H. reflexivity.
Qed.

Lemma get_truthy (v : value) (k : string) :
  truthy v = true -> get v k = ret (member v k).
Proof.
  destruct v; simpl; intros H; try discriminate; reflexivity.
Qed.

Lemma forward_forwarded (done : list value -> M unit) (args : list value) :
  forward done args = done (forwarded args).
Proof.
  unfold forward, forwarded.
  destruct (truthy (nth 0 args JUndefined)); [reflexivity|].
  destruct (truthy (nth 1 args JUndefined)); reflexivity.
Qed.

Lemma sendEmail_eq (env : Env) (email_info : value) :
  sendEmail env email_info =
  mkM (Normal tt) [ESendMail email_info] (later (sendEmail env email_info)).
Proof.
  unfold sendEmail.
  destruct (transporter_sendMail env email_info) as [err info].
  destruct (truthy err); [reflexivity|].
  destruct info; reflexivity.
Qed.

Lemma sendEmail_later_console (env : Env) (email_info : value) :
  forallb is_console (later (sendEmail env email_info)) = true.
Proof.
  unfold sendEmail.
  destruct (transporter_sendMail env email_info) as [err info].
  destruct (truthy err); [reflexivity|].
  destruct info; reflexivity.
Qed.

Lemma console_not_in (l : list Event) (ev : Event) :
  forallb is_console l = true -> is_console ev = false -> ~ In ev l.
Proof.
  intros Hl Hev Hin.
  rewrite forallb_forall in Hl.
  specialize (Hl ev Hin). congruence.
Qed.

Lemma filter_console (p : Event -> bool) (l : list Event) :
  (forall ev, is_console ev = true -> p ev = false) ->
  forallb is_console l = true -> filter p l = [].
Proof.
  intros Hp. induction l as [|ev l IH]; simpl; [reflexivity|].
  intros H. apply andb_true_iff in H as [Hev Hl].
  rewrite (Hp ev Hev). auto.
Qed.

(** ** The five ways [composeTemporaryLinkEmail] can go *)

Section Compose.

Variable env : Env.
Variables (renderInfo : RenderInfo) (emailInfo : object).

(** A callback that does nothing but deliver its arguments, possibly
    rearranged by [h], to the caller. *)
Variable done : list value -> M unit.
Variable h : list value -> list value.
Hypothesis done_reports : forall args, done args = report (h args).

Lemma compose_cases :
  Composed env renderInfo emailInfo h
    (composeTemporaryLinkEmail env renderInfo emailInfo done).
Proof.
  unfold composeTemporaryLinkEmail. cbv zeta.
  rewrite bind_emit.
  destruct (app_render env (view_of renderInfo) renderInfo)
    as [err HTML] eqn:Hr.
  destruct (truthy err) eqn:He.
  { rewrite done_reports. eapply RenderError; eauto. }
  destruct (truthy HTML) eqn:Hh; cbn [negb].
  2:{ rewrite done_reports. eapply RenderEmpty; eauto. }
  rewrite bind_emit.
  destruct (TemporaryURL_create env
              (temporaryURL_values env renderInfo emailInfo HTML))
    as [row|e] eqn:Hc.
  2:{ rewrite then_catch_rejected, done_reports.
      eapply CreateRejected; eauto. }
  rewrite then_catch_resolved.
  destruct (truthy row) eqn:Hrow.
  - rewrite (get_truthy _ _ Hrow), bind_ret, sendEmail_eq, done_reports.
    cbn. rewrite app_nil_r.
    eapply CreateRow; eauto.
  - eapply CreateNoRow; eauto.
Qed.

Lemma compose_normal :
  outcome (composeTemporaryLinkEmail env renderInfo emailInfo done) = Normal tt.
Proof. destruct compose_cases; reflexivity. Qed.

End Compose.

Lemma forward_reports (args : list value) :
  forward report args = report (forwarded args).
Proof. apply forward_forwarded. Qed.

Lemma report_reports (args : list value) :
  report args = report ((fun a => a) args).
Proof. reflexivity. Qed.

Lemma activation_is_compose (env : Env) (info : object)
    (done : list value -> M unit) :
  sendActivationEmail env info done =
  composeTemporaryLinkEmail env (activation_renderInfo info)
    (activation_emailInfo info) (forward done).
Proof. reflexivity. Qed.

Lemma trace_mkM (l1 l2 : list Event) :
  trace (mkM (Normal tt) l1 l2) = (l1 ++ l2)%list.
Proof. reflexivity. Qed.

(** ** The four ways [sendResetEmail] can go *)

Section ResetPaths.

Variable env : Env.
Variable info : object.

Lemma reset_lookup_rejected (e : value) :
  User_findOne env (findOne_query info) = Rejected e ->
  sendResetEmail env info report = mkM (Normal tt) [EFindOne (findOne_query info); EUnhandledRejection e] [].
Proof.
  intros Hu. unfold sendResetEmail.
  rewrite bind_emit, Hu. reflexivity.
Qed.

Lemma reset_no_user (user : value) :
  User_findOne env (findOne_query info) = Resolved user ->
  truthy user = false ->
  sendResetEmail env info report = mkM (Normal tt)
        [EFindOne (findOne_query info); EUnhandledRejection (ReferenceError "err is not defined")]
        [].
Proof.
  intros Hu Hf. unfold sendResetEmail.
  rewrite bind_emit, Hu. unfold promise_then. rewrite Hf. reflexivity.
Qed.

Lemma reset_not_activated (user : value) :
  User_findOne env (findOne_query info) = Resolved user ->
  truthy user = true ->
  truthy (activated user) = false ->
  sendResetEmail env info report = mkM (Normal tt)
        [EFindOne (findOne_query info);
         EDone [JNull; JBool false;
                JObj [("message", JStr "You must activate your account first.")]]]
        [].
Proof.
  intros Hu Ht Ha. unfold sendResetEmail.
  rewrite bind_emit, Hu. unfold promise_then. rewrite Ht. cbn [negb].
  rewrite (get_truthy _ _ Ht), bind_ret.
  unfold activated in Ha.
  destruct (truthy (member user "user_active")) eqn:Hact.
  - rewrite bind_ret, Ha. reflexivity.
  - rewrite (get_truthy _ _ Ht), bind_ret, Ha. reflexivity.
Qed.

Lemma reset_proceeds (user : value) :
  User_findOne env (findOne_query info) = Resolved user ->
  truthy user = true ->
  truthy (activated user) = true ->
  let c := composeTemporaryLinkEmail env (reset_renderInfo info user)
             (reset_emailInfo info) (forward report) in
  sendResetEmail env info report = mkM (Normal tt) (EFindOne (findOne_query info) :: now c) (later c).
Proof.
  intros Hu Ht Ha c. unfold sendResetEmail.
  rewrite bind_emit, Hu. unfold promise_then. rewrite Ht. cbn [negb].
  rewrite (get_truthy _ _ Ht), bind_ret.
  assert (Hc : outcome c = Normal tt)
    by (apply (compose_normal env _ _ _ forwarded forward_reports)).
  unfold activated in Ha.
  destruct (truthy (member user "user_active")) eqn:Hact.
  - rewrite bind_ret, Ha. cbn [negb].
    rewrite (get_truthy _ _ Ht), bind_ret.
    fold (reset_renderInfo info user). fold (reset_emailInfo info). fold c.
    rewrite (unhandled_normal _ Hc), Hc. reflexivity.
  - rewrite (get_truthy _ _ Ht), bind_ret, Ha. cbn [negb].
    rewrite (get_truthy _ _ Ht), bind_ret.
    fold (reset_renderInfo info user). fold (reset_emailInfo info). fold c.
    rewrite (unhandled_normal _ Hc), Hc. reflexivity.
Qed.

End ResetPaths.

(** ** What the caller's callback is told *)

Lemma forwarded_error (err : value) :
  truthy err = true -> forwarded [err] = [err].
Proof. intros H. unfold forwarded. cbn. rewrite H. reflexivity. Qed.

Lemma forwarded_row (row : value) :
  truthy row = true -> forwarded [JNull; row] = [JNull; row].
Proof. intros H. unfold forwarded. cbn. rewrite H. reflexivity. Qed.

(** Splits a hypothesis [In ev (e1 :: ... :: en :: l)] into its cases and
    drops those where the two events have different shapes. *)
Ltac in_cases H :=
  cbn [In app] in H;
  repeat (destruct H as [H|H]; [try discriminate H|]);
  try contradiction.

(** When an exported function reports a row to its caller, that row is what
    the store resolved with for the record built from the rendered page. *)
Lemma forwarded_success (env : Env) (renderInfo : RenderInfo)
    (emailInfo : object) (row : value) :
  truthy row = true ->
  In (EDone [JNull; row])
     (trace (composeTemporaryLinkEmail env renderInfo emailInfo (forward report))) ->
  exists HTML,
    In (ECreate (temporaryURL_values env renderInfo emailInfo HTML))
       (trace (composeTemporaryLinkEmail env renderInfo emailInfo (forward report)))
    /\ TemporaryURL_create env (temporaryURL_values env renderInfo emailInfo HTML)
       = Resolved row.
Proof.
  intros Hrow.
  pose proof (compose_cases env renderInfo emailInfo _ forwarded forward_reports) as P.
  remember (composeTemporaryLinkEmail env renderInfo emailInfo (forward report)) as c.
  destruct P as [err HTML Hr He | err HTML Hr He Hh | err HTML e Hr He Hh Hc
                | err HTML row' Hr He Hh Hc Hf | err HTML row' Hr He Hh Hc Ht];
    rewrite trace_mkM; intros Hin.
  - rewrite (forwarded_error _ He) in Hin. in_cases Hin.
  - in_cases Hin. injection Hin as <-. discriminate Hrow.
  - in_cases Hin. injection Hin as <-. discriminate Hrow.
  - in_cases Hin.
  - rewrite (forwarded_row _ Ht) in Hin. in_cases Hin.
    + injection Hin as ->. exists HTML. split; [|exact Hc].
      cbn. auto.
    + exfalso. revert Hin. apply console_not_in; [|reflexivity].
      apply sendEmail_later_console.
Qed.

(** C1. When [sendActivationEmail] reports a row to its caller, the record
    handed to the store, for which the store resolved with that row, has
    [expiration_time] equal to the reading of the clock plus 24 times
    3,600,000 ms; when [sendResetEmail] does, plus 2 times 3,600,000 ms. *)
Theorem expiration_time_of_issued_link (env : Env) (info : object)
    (row : value) :
  truthy row = true ->
  (In (EDone [JNull; row]) (trace (sendActivationEmail env info report)) ->
   exists values,
     In (ECreate values) (trace (sendActivationEmail env info report))
     /\ TemporaryURL_create env values = Resolved row
     /\ member values "expiration_time" = JNum (Date_now env + 24 * 3600000))
  /\
  (In (EDone [JNull; row]) (trace (sendResetEmail env info report)) ->
   exists values,
     In (ECreate values) (trace (sendResetEmail env info report))
     /\ TemporaryURL_create env values = Resolved row
     /\ member values "expiration_time" = JNum (Date_now env + 2 * 3600000)).
Proof.
  intros Hrow. split.
  - rewrite activation_is_compose. intros Hin.
    destruct (forwarded_success _ _ _ _ Hrow Hin) as (HTML & Hc & Hs).
    eexists. split; [exact Hc|]. split; [exact Hs|]. reflexivity.
  - destruct (User_findOne env (findOne_query info)) as [user|e] eqn:Hu.
    2:{ rewrite (reset_lookup_rejected _ _ _ Hu), trace_mkM.
        intros Hin. in_cases Hin. }
    destruct (truthy user) eqn:Ht.
    2:{ rewrite (reset_no_user _ _ _ Hu Ht), trace_mkM.
        intros Hin. in_cases Hin. }
    destruct (truthy (activated user)) eqn:Ha.
    2:{ rewrite (reset_not_activated _ _ _ Hu Ht Ha), trace_mkM.
        intros Hin. in_cases Hin. }
    rewrite (reset_proceeds _ _ _ Hu Ht Ha).
    set (c := composeTemporaryLinkEmail env (reset_renderInfo info user)
                (reset_emailInfo info) (forward report)).
    assert (Hc : outcome c = Normal tt)
      by (apply (compose_normal env _ _ _ forwarded forward_reports)).
    assert (Htr : trace (mkM (Normal tt) (EFindOne (findOne_query info) :: now c)
                           (later c))
                  = EFindOne (findOne_query info) :: trace c).
    { unfold trace. rewrite Hc. reflexivity. }
    rewrite Htr. intros [Hin|Hin]; [discriminate Hin|].
    destruct (forwarded_success _ _ _ _ Hrow Hin) as (HTML & Hin' & Hs).
    eexists. split; [right; exact Hin'|]. split; [exact Hs|]. reflexivity.
Qed.

Lemma expiration_time_of_issued_link_witness :
  (exists values,
     In (ECreate values)
        (trace (sendActivationEmail Sample.all_well Sample.ann report))
     /\ member values "expiration_time" = JNum (1596067200000 + 86400000))
  /\
  (exists values,
     In (ECreate values)
        (trace (sendResetEmail Sample.all_well Sample.ann report))
     /\ member values "expiration_time" = JNum (1596067200000 + 7200000)).
Proof.
  split.
  - destruct (proj1 (expiration_time_of_issued_link Sample.all_well Sample.ann
                       (temporaryURL_values Sample.all_well
                          (activation_renderInfo Sample.ann)
                          (activation_emailInfo Sample.ann)
                          (JStr "<html>...</html>"))
                       eq_refl))
      as (values & Hin & _ & Hexp).
    + simpl. do 3 right. left. reflexivity.
    + exists values. split; [exact Hin | exact Hexp].
  - destruct (proj2 (expiration_time_of_issued_link Sample.all_well Sample.ann
                       (temporaryURL_values Sample.all_well
                          (reset_renderInfo Sample.ann Sample.ann_user)
                          (reset_emailInfo Sample.ann)
                          (JStr "<html>...</html>"))
                       eq_refl))
      as (values & Hin & _ & Hexp).
    + simpl. do 4 right. left. reflexivity.
    + exists values. split; [exact Hin | exact Hexp].
Defined.

(** ** Order of persistence and delivery *)

(** A list with exactly one element satisfying [p] splits around it in one
    way only. *)
Lemma split_at_unique (p : Event -> bool) (l1 l2 pre post : list Event)
    (a b : Event) :
  filter p l1 = [] -> filter p l2 = [] -> p b = true ->
  (l1 ++ a :: l2 = pre ++ b :: post)%list ->
  pre = l1 /\ a = b /\ post = l2.
Proof.
  intros H1 H2 Hb. revert pre.
  induction l1 as [|x l1 IH]; intros pre E.
  - destruct pre as [|e pre]; cbn in E.
    + injection E as -> ->. auto.
    + injection E as -> ->.
      rewrite filter_app in H2. cbn in H2. rewrite Hb in H2.
      apply app_eq_nil in H2 as [_ H2]. discriminate H2.
  - cbn in H1. destruct (p x) eqn:Hx; [discriminate H1|].
    destruct pre as [|e pre]; cbn in E.
    + injection E as -> _. congruence.
    + injection E as -> E.
      destruct (IH H1 pre E) as (-> & -> & ->). auto.
Qed.

Lemma sendEmail_later_failed (env : Env) (email_info err info : value) :
  transporter_sendMail env email_info = (err, info) ->
  truthy err = true ->
  later (sendEmail env email_info) = [ELog err].
Proof.
  intros Hs He. unfold sendEmail. rewrite Hs, He. reflexivity.
Qed.

(** C2. In a run of [composeTemporaryLinkEmail], a call of the transport's
    [sendMail] comes after the call of the store's [create], that call is the
    only one of the run and it resolved with a row; the message sent is that
    row's [email_info].  Whatever the transport answers, the caller's
    callback is called once, with no error and that row; when the transport
    reports an error, all that follows the callback is the error on the
    console. *)
Theorem send_only_after_persisted (env : Env) (renderInfo : RenderInfo)
    (emailInfo : object) (pre post : list Event) (email_info : value) :
  trace (composeTemporaryLinkEmail env renderInfo emailInfo report)
    = (pre ++ ESendMail email_info :: post)%list ->
  exists values row,
    In (ECreate values) pre
    /\ TemporaryURL_create env values = Resolved row
    /\ truthy row = true
    /\ email_info = member row "email_info"
    /\ (forall values',
          In (ECreate values')
             (trace (composeTemporaryLinkEmail env renderInfo emailInfo report)) ->
          values' = values)
    /\ filter is_done
         (trace (composeTemporaryLinkEmail env renderInfo emailInfo report))
       = [EDone [JNull; row]]
    /\ (forall err info,
          transporter_sendMail env email_info = (err, info) ->
          truthy err = true ->
          post = [EDone [JNull; row]; ELog err]).
Proof.
  pose proof (compose_cases env renderInfo emailInfo _ (fun a => a) report_reports) as P.
  remember (composeTemporaryLinkEmail env renderInfo emailInfo report) as c.
  destruct P as [err HTML Hr He | err HTML Hr He Hh | err HTML e Hr He Hh Hc
                | err HTML row Hr He Hh Hc Hf | err HTML row Hr He Hh Hc Ht];
    rewrite trace_mkM; intros E;
    try (assert (Hin : In (ESendMail email_info) (pre ++ ESendMail email_info :: post))
           by (apply in_elt);
         rewrite <- E in Hin; in_cases Hin; fail).
  pose proof (sendEmail_later_console env (member row "email_info")) as Hlater.
  change ([ERender (view_of renderInfo) renderInfo;
           ECreate (temporaryURL_values env renderInfo emailInfo HTML);
           ESendMail (member row "email_info"); EDone [JNull; row]]
          ++ later (sendEmail env (member row "email_info")))%list
    with ([ERender (view_of renderInfo) renderInfo;
           ECreate (temporaryURL_values env renderInfo emailInfo HTML)]
          ++ ESendMail (member row "email_info")
          :: (EDone [JNull; row] :: later (sendEmail env (member row "email_info"))))%list
    in E.
  apply (split_at_unique is_sendMail) in E as (-> & Hm & ->);
    [ | reflexivity
      | cbn; apply filter_console; [intros [] ; cbn; congruence | exact Hlater]
      | reflexivity ].
  injection Hm as Hm. subst email_info.
  exists (temporaryURL_values env renderInfo emailInfo HTML), row.
  repeat split; auto.
  - cbn. auto.
  - intros values' Hin. in_cases Hin.
    + injection Hin as <-. reflexivity.
    + exfalso. revert Hin. apply console_not_in; [exact Hlater | reflexivity].
  - cbn. f_equal. apply filter_console; [intros []; cbn; congruence | exact Hlater].
  - intros err' info Hs He'. f_equal.
    apply (sendEmail_later_failed _ _ _ _ Hs He').
Qed.

Lemma send_only_after_persisted_witness :
  exists values row,
    TemporaryURL_create Sample.send_fails values = Resolved row
    /\ filter is_done
         (trace (composeTemporaryLinkEmail Sample.send_fails
                   Sample.plain_renderInfo Sample.emailInfo_bare report))
       = [EDone [JNull; row]]
    /\ filter is_console
         (trace (composeTemporaryLinkEmail Sample.send_fails
                   Sample.plain_renderInfo Sample.emailInfo_bare report))
       = [ELog (JStr "sendmail exited with code 1")].
Proof.
  pose (values := temporaryURL_values Sample.send_fails Sample.plain_renderInfo
                    Sample.emailInfo_bare (JStr "<html>...</html>")).
  destruct (send_only_after_persisted Sample.send_fails Sample.plain_renderInfo
              Sample.emailInfo_bare
              [ERender (view_of Sample.plain_renderInfo) Sample.plain_renderInfo;
               ECreate values]
              [EDone [JNull; values]; ELog (JStr "sendmail exited with code 1")]
              (member values "email_info") eq_refl)
    as (values' & row & _ & Hc & _ & _ & _ & Hd & _).
  exists values', row. split; [exact Hc|]. split; [exact Hd|]. reflexivity.
Defined.

Lemma reset_proceeds_trace (env : Env) (info : object) (user : value) :
  User_findOne env (findOne_query info) = Resolved user ->
  truthy user = true ->
  truthy (activated user) = true ->
  trace (sendResetEmail env info report) =
  EFindOne (findOne_query info)
  :: trace (composeTemporaryLinkEmail env (reset_renderInfo info user)
              (reset_emailInfo info) (forward report)).
Proof.
  intros Hu Ht Ha. rewrite (reset_proceeds _ _ _ Hu Ht Ha).
  unfold trace. cbn [outcome now later].
  rewrite (compose_normal env _ _ _ forwarded forward_reports).
  reflexivity.
Qed.

(** ** Failures of the renderer *)

Lemma render_error_trace (env : Env) (renderInfo : RenderInfo)
    (emailInfo : object) (err HTML : value) (done : list value -> M unit)
    (h : list value -> list value) :
  (forall args, done args = report (h args)) ->
  app_render env (view_of renderInfo) renderInfo = (err, HTML) ->
  truthy err = true ->
  trace (composeTemporaryLinkEmail env renderInfo emailInfo done)
  = [ERender (view_of renderInfo) renderInfo; EDone (h [err])].
Proof.
  intros Hd Hr He.
  unfold composeTemporaryLinkEmail. cbv zeta.
  rewrite bind_emit, Hr, He, Hd. reflexivity.
Qed.

Lemma render_empty_trace (env : Env) (renderInfo : RenderInfo)
    (emailInfo : object) (err HTML : value) (done : list value -> M unit)
    (h : list value -> list value) :
  (forall args, done args = report (h args)) ->
  app_render env (view_of renderInfo) renderInfo = (err, HTML) ->
  truthy err = false ->
  truthy HTML = false ->
  trace (composeTemporaryLinkEmail env renderInfo emailInfo done)
  = [ERender (view_of renderInfo) renderInfo; EDone (h [JNull; JBool false])].
Proof.
  intros Hd Hr He Hh.
  unfold composeTemporaryLinkEmail. cbv zeta.
  rewrite bind_emit, Hr, He, Hh, Hd. reflexivity.
Qed.

(** C3. When the renderer reports no error and hands back a falsy page, a
    run of [composeTemporaryLinkEmail] consists of the call of the renderer
    and one call of the callback with [(null, false)]: the store and the
    transport are not called.  The same holds for the callback of the caller
    of [sendActivationEmail], and for that of [sendResetEmail] once the user
    is found and activated. *)
Theorem empty_render_reports_failure (env : Env) (renderInfo : RenderInfo)
    (emailInfo : object) (err HTML : value) :
  app_render env (view_of renderInfo) renderInfo = (err, HTML) ->
  truthy err = false ->
  truthy HTML = false ->
  trace (composeTemporaryLinkEmail env renderInfo emailInfo report)
  = [ERender (view_of renderInfo) renderInfo; EDone [JNull; JBool false]]
  /\
  (forall info,
     renderInfo = activation_renderInfo info ->
     trace (sendActivationEmail env info report)
     = [ERender (view_of renderInfo) renderInfo; EDone [JNull; JBool false]])
  /\
  (forall info user,
     renderInfo = reset_renderInfo info user ->
     User_findOne env (findOne_query info) = Resolved user ->
     truthy user = true ->
     truthy (activated user) = true ->
     trace (sendResetEmail env info report)
     = [EFindOne (findOne_query info);
        ERender (view_of renderInfo) renderInfo; EDone [JNull; JBool false]]).
Proof.
  intros Hr He Hh. split; [|split].
  - apply (render_empty_trace _ _ _ _ _ report (fun a => a) report_reports Hr He Hh).
  - intros info ->. rewrite activation_is_compose.
    apply (render_empty_trace _ _ _ _ _ _ forwarded forward_reports Hr He Hh).
  - intros info user -> Hu Ht Ha.
    rewrite (reset_proceeds_trace _ _ _ Hu Ht Ha). f_equal.
    apply (render_empty_trace _ _ _ _ _ _ forwarded forward_reports Hr He Hh).
Qed.

Lemma empty_render_reports_failure_witness :
  trace (composeTemporaryLinkEmail Sample.renderer_empty
           Sample.plain_renderInfo Sample.emailInfo_bare report)
  = [ERender "emails/activate_email" Sample.plain_renderInfo;
     EDone [JNull; JBool false]]
  /\ trace (sendActivationEmail Sample.renderer_empty Sample.ann report)
     = [ERender "emails/activate_email" (activation_renderInfo Sample.ann);
        EDone [JNull; JBool false]]
  /\ trace (sendResetEmail Sample.renderer_empty Sample.ann report)
     = [EFindOne (findOne_query Sample.ann);
        ERender "emails/reset_email"
          (reset_renderInfo Sample.ann Sample.ann_user);
        EDone [JNull; JBool false]].
Proof.
  split; [|split].
  - exact (proj1 (empty_render_reports_failure Sample.renderer_empty
                    Sample.plain_renderInfo Sample.emailInfo_bare
                    JNull (JStr "") eq_refl eq_refl eq_refl)).
  - exact (proj1 (proj2 (empty_render_reports_failure Sample.renderer_empty
                           (activation_renderInfo Sample.ann) []
                           JNull (JStr "") eq_refl eq_refl eq_refl))
             Sample.ann eq_refl).
  - exact (proj2 (proj2 (empty_render_reports_failure Sample.renderer_empty
                           (reset_renderInfo Sample.ann Sample.ann_user) []
                           JNull (JStr "") eq_refl eq_refl eq_refl))
             Sample.ann Sample.ann_user eq_refl eq_refl eq_refl eq_refl).
Defined.

(** C8. When the renderer reports an error, a run of
    [composeTemporaryLinkEmail] consists of the call of the renderer and one
    call of the callback with that error as its only argument: the store and
    the transport are not called.  The same holds for the callback of the
    caller of [sendActivationEmail], and for that of [sendResetEmail] once
    the user is found and activated. *)
Theorem render_error_propagated (env : Env) (renderInfo : RenderInfo)
    (emailInfo : object) (err HTML : value) :
  app_render env (view_of renderInfo) renderInfo = (err, HTML) ->
  truthy err = true ->
  trace (composeTemporaryLinkEmail env renderInfo emailInfo report)
  = [ERender (view_of renderInfo) renderInfo; EDone [err]]
  /\
  (forall info,
     renderInfo = activation_renderInfo info ->
     trace (sendActivationEmail env info report)
     = [ERender (view_of renderInfo) renderInfo; EDone [err]])
  /\
  (forall info user,
     renderInfo = reset_renderInfo info user ->
     User_findOne env (findOne_query info) = Resolved user ->
     truthy user = true ->
     truthy (activated user) = true ->
     trace (sendResetEmail env info report)
     = [EFindOne (findOne_query info);
        ERender (view_of renderInfo) renderInfo; EDone [err]]).
Proof.
  intros Hr He. split; [|split].
  - apply (render_error_trace _ _ _ _ _ report (fun a => a) report_reports Hr He).
  - intros info ->. rewrite activation_is_compose.
    rewrite (render_error_trace _ _ _ _ _ _ forwarded forward_reports Hr He).
    rewrite (forwarded_error _ He). reflexivity.
  - intros info user -> Hu Ht Ha.
    rewrite (reset_proceeds_trace _ _ _ Hu Ht Ha). f_equal.
    rewrite (render_error_trace _ _ _ _ _ _ forwarded forward_reports Hr He).
    rewrite (forwarded_error _ He). reflexivity.
Qed.

Lemma render_error_propagated_witness :
  trace (composeTemporaryLinkEmail Sample.renderer_fails
           Sample.plain_renderInfo Sample.emailInfo_bare report)
  = [ERender "emails/activate_email" Sample.plain_renderInfo;
     EDone [JStr "Failed to lookup view"]]
  /\ trace (sendActivationEmail Sample.renderer_fails Sample.ann report)
     = [ERender "emails/activate_email" (activation_renderInfo Sample.ann);
        EDone [JStr "Failed to lookup view"]]
  /\ trace (sendResetEmail Sample.renderer_fails Sample.ann report)
     = [EFindOne (findOne_query Sample.ann);
        ERender "emails/reset_email"
          (reset_renderInfo Sample.ann Sample.ann_user);
        EDone [JStr "Failed to lookup view"]].
Proof.
  split; [|split].
  - exact (proj1 (render_error_propagated Sample.renderer_fails
                    Sample.plain_renderInfo Sample.emailInfo_bare
                    (JStr "Failed to lookup view") JUndefined eq_refl eq_refl)).
  - exact (proj1 (proj2 (render_error_propagated Sample.renderer_fails
                           (activation_renderInfo Sample.ann) []
                           (JStr "Failed to lookup view") JUndefined
                           eq_refl eq_refl))
             Sample.ann eq_refl).
  - exact (proj2 (proj2 (render_error_propagated Sample.renderer_fails
                           (reset_renderInfo Sample.ann Sample.ann_user) []
                           (JStr "Failed to lookup view") JUndefined
                           eq_refl eq_refl))
             Sample.ann Sample.ann_user eq_refl eq_refl eq_refl eq_refl).
Defined.

(** ** Answers of the store *)

(** C10. When the store's [create] resolves with a falsy value, a run of
    [composeTemporaryLinkEmail] consists of the call of the renderer and the
    call of the store, whatever callback it was given: the callback is not
    called, neither with a row nor with a failure. *)
Theorem no_callback_when_create_resolves_falsy (env : Env)
    (renderInfo : RenderInfo) (emailInfo : object) (err HTML row : value)
    (done : list value -> M unit) :
  app_render env (view_of renderInfo) renderInfo = (err, HTML) ->
  truthy err = false ->
  truthy HTML = true ->
  TemporaryURL_create env (temporaryURL_values env renderInfo emailInfo HTML)
    = Resolved row ->
  truthy row = false ->
  composeTemporaryLinkEmail env renderInfo emailInfo done
  = mkM (Normal tt)
      [ERender (view_of renderInfo) renderInfo;
       ECreate (temporaryURL_values env renderInfo emailInfo HTML)] []
  /\ filter is_done
       (trace (composeTemporaryLinkEmail env renderInfo emailInfo report)) = [].
Proof.
  intros Hr He Hh Hc Hrow.
  assert (E : forall d, composeTemporaryLinkEmail env renderInfo emailInfo d
                        = mkM (Normal tt)
                            [ERender (view_of renderInfo) renderInfo;
                             ECreate (temporaryURL_values env renderInfo emailInfo HTML)]
                            []).
  { intros d. unfold composeTemporaryLinkEmail. cbv zeta.
    rewrite bind_emit, Hr, He, Hh. cbn [negb].
    rewrite bind_emit, Hc, then_catch_resolved, Hrow. reflexivity. }
  split; [apply E|]. rewrite E. reflexivity.
Qed.

Lemma no_callback_when_create_resolves_falsy_witness :
  trace (composeTemporaryLinkEmail Sample.store_resolves_null
           Sample.plain_renderInfo Sample.emailInfo_bare report)
  = [ERender "emails/activate_email" Sample.plain_renderInfo;
     ECreate (temporaryURL_values Sample.store_resolves_null
                Sample.plain_renderInfo Sample.emailInfo_bare
                (JStr "<html>...</html>"))].
Proof.
  rewrite (proj1 (no_callback_when_create_resolves_falsy
                    Sample.store_resolves_null Sample.plain_renderInfo
                    Sample.emailInfo_bare JNull (JStr "<html>...</html>") JNull
                    report eq_refl eq_refl eq_refl eq_refl eq_refl)).
  reflexivity.
Defined.

(** When the store rejects, [composeTemporaryLinkEmail] calls its callback
    with [(null, false, {message: e})] and does not call the transport. *)
Lemma create_rejected_trace (env : Env) (renderInfo : RenderInfo)
    (emailInfo : object) (err HTML e : value) (done : list value -> M unit)
    (h : list value -> list value) :
  (forall args, done args = report (h args)) ->
  app_render env (view_of renderInfo) renderInfo = (err, HTML) ->
  truthy err = false ->
  truthy HTML = true ->
  TemporaryURL_create env (temporaryURL_values env renderInfo emailInfo HTML)
    = Rejected e ->
  trace (composeTemporaryLinkEmail env renderInfo emailInfo done)
  = [ERender (view_of renderInfo) renderInfo;
     ECreate (temporaryURL_values env renderInfo emailInfo HTML);
     EDone (h [JNull; JBool false; JObj [("message", e)]])].
Proof.
  intros Hd Hr He Hh Hc.
  unfold composeTemporaryLinkEmail. cbv zeta.
  rewrite bind_emit, Hr, He, Hh. cbn [negb].
  rewrite bind_emit, Hc, then_catch_rejected, Hd. reflexivity.
Qed.

(** The callback of the exported functions has two parameters: a third
    argument never reaches the caller. *)
Lemma forwarded_drops_message (info : value) :
  forwarded [JNull; JBool false; info] = [JNull; JBool false].
Proof. reflexivity. Qed.

(** When the store rejects, the caller of [sendActivationEmail] is told
    [(null, false)]: the store's error is not among the arguments. *)
Lemma activation_create_rejected (env : Env) (info : object)
    (err HTML e : value) :
  app_render env (view_of (activation_renderInfo info))
    (activation_renderInfo info) = (err, HTML) ->
  truthy err = false ->
  truthy HTML = true ->
  TemporaryURL_create env
    (temporaryURL_values env (activation_renderInfo info)
       (activation_emailInfo info) HTML) = Rejected e ->
  trace (sendActivationEmail env info report)
  = [ERender (view_of (activation_renderInfo info)) (activation_renderInfo info);
     ECreate (temporaryURL_values env (activation_renderInfo info)
                (activation_emailInfo info) HTML);
     EDone [JNull; JBool false]].
Proof.
  intros Hr He Hh Hc. rewrite activation_is_compose.
  rewrite (create_rejected_trace _ _ _ _ _ _ _ forwarded forward_reports
             Hr He Hh Hc).
  rewrite forwarded_drops_message. reflexivity.
Qed.

(** C5, at the activation request of the sample with a store that rejects
    with ["Validation error"]: [composeTemporaryLinkEmail] hands the error to
    its callback as a message and the transport is not called, but the
    callers of [sendActivationEmail] and [sendResetEmail] are told
    [(null, false)] and nothing else. *)
Theorem store_error_message_lost :
  trace (composeTemporaryLinkEmail Sample.store_rejects
           (activation_renderInfo Sample.ann) (activation_emailInfo Sample.ann)
           report)
  = [ERender "emails/activate_email" (activation_renderInfo Sample.ann);
     ECreate (temporaryURL_values Sample.store_rejects
                (activation_renderInfo Sample.ann)
                (activation_emailInfo Sample.ann) (JStr "<html>...</html>"));
     EDone [JNull; JBool false;
            JObj [("message", JStr "Validation error")]]]
  /\ trace (sendActivationEmail Sample.store_rejects Sample.ann report)
     = [ERender "emails/activate_email" (activation_renderInfo Sample.ann);
        ECreate (temporaryURL_values Sample.store_rejects
                   (activation_renderInfo Sample.ann)
                   (activation_emailInfo Sample.ann) (JStr "<html>...</html>"));
        EDone [JNull; JBool false]]
  /\ trace (sendResetEmail Sample.store_rejects Sample.ann report)
     = [EFindOne (findOne_query Sample.ann);
        ERender "emails/reset_email"
          (reset_renderInfo Sample.ann Sample.ann_user);
        ECreate (temporaryURL_values Sample.store_rejects
                   (reset_renderInfo Sample.ann Sample.ann_user)
                   (reset_emailInfo Sample.ann) (JStr "<html>...</html>"));
        EDone [JNull; JBool false]].
Proof.
  split; [|split].
  - exact (create_rejected_trace Sample.store_rejects
             (activation_renderInfo Sample.ann) (activation_emailInfo Sample.ann)
             JNull (JStr "<html>...</html>") (JStr "Validation error")
             report (fun a => a) report_reports eq_refl eq_refl eq_refl eq_refl).
  - exact (activation_create_rejected Sample.store_rejects Sample.ann JNull
             (JStr "<html>...</html>") (JStr "Validation error")
             eq_refl eq_refl eq_refl eq_refl).
  - rewrite (reset_proceeds_trace Sample.store_rejects Sample.ann
               Sample.ann_user eq_refl eq_refl eq_refl).
    apply (f_equal (cons (EFindOne (findOne_query Sample.ann)))).
    exact (create_rejected_trace Sample.store_rejects
             (reset_renderInfo Sample.ann Sample.ann_user)
             (reset_emailInfo Sample.ann)
             JNull (JStr "<html>...</html>") (JStr "Validation error")
             _ forwarded forward_reports eq_refl eq_refl eq_refl eq_refl).
Qed.

(** ** The user lookup of [sendResetEmail] *)

(** C4, at a reset request for an address the store knows no user for: the
    lookup is the only call made, the handler stops at the unbound [err],
    and the caller's callback is not called. *)
Theorem reset_without_user_never_reports :
  trace (sendResetEmail Sample.no_such_user Sample.ann report)
  = [EFindOne (JObj [("where", JObj [("login_key", JStr "a@x.com")])]);
     EUnhandledRejection (ReferenceError "err is not defined")]
  /\ filter is_done (trace (sendResetEmail Sample.no_such_user Sample.ann report))
     = [].
Proof.
  rewrite (reset_no_user Sample.no_such_user Sample.ann JNull eq_refl eq_refl).
  split; reflexivity.
Qed.

(** C6. When the user found by [sendResetEmail] has a falsy [user_active]
    and a falsy [last_login], the run consists of the lookup and one call of
    the caller's callback with [(null, false, {message: "You must activate
    your account first."})]: the renderer, the store and the transport are
    not called. *)
Theorem reset_requires_activation (env : Env) (info : object) (user : value) :
  User_findOne env (findOne_query info) = Resolved user ->
  truthy user = true ->
  truthy (member user "user_active") = false ->
  truthy (member user "last_login") = false ->
  trace (sendResetEmail env info report)
  = [EFindOne (findOne_query info);
     EDone [JNull; JBool false;
            JObj [("message", JStr "You must activate your account first.")]]].
Proof.
  intros Hu Ht Hact Hlast.
  rewrite (reset_not_activated env info user Hu Ht).
  - reflexivity.
  - unfold activated. rewrite Hact. exact Hlast.
Qed.

Lemma reset_requires_activation_witness :
  trace (sendResetEmail Sample.user_dormant Sample.ann report)
  = [EFindOne (JObj [("where", JObj [("login_key", JStr "a@x.com")])]);
     EDone [JNull; JBool false;
            JObj [("message", JStr "You must activate your account first.")]]].
Proof.
  exact (reset_requires_activation Sample.user_dormant Sample.ann
           Sample.dormant_user eq_refl eq_refl eq_refl eq_refl).
Defined.

(** ** The record handed to the store *)

(** Every record [composeTemporaryLinkEmail] hands to the store is the
    literal of [temporaryURL_values] for the page the renderer returned. *)
Lemma created_values (env : Env) (renderInfo : RenderInfo)
    (emailInfo : object) (done : list value -> M unit)
    (h : list value -> list value) (values : value) :
  (forall args, done args = report (h args)) ->
  In (ECreate values)
     (trace (composeTemporaryLinkEmail env renderInfo emailInfo done)) ->
  exists HTML, values = temporaryURL_values env renderInfo emailInfo HTML.
Proof.
  intros Hd.
  pose proof (compose_cases env renderInfo emailInfo done h Hd) as P.
  remember (composeTemporaryLinkEmail env renderInfo emailInfo done) as c.
  destruct P as [err HTML Hr He | err HTML Hr He Hh | err HTML e Hr He Hh Hc
                | err HTML row Hr He Hh Hc Hf | err HTML row Hr He Hh Hc Ht];
    rewrite trace_mkM; intros Hin; in_cases Hin;
    try (injection Hin as <-; exists HTML; reflexivity).
  exfalso. revert Hin. apply console_not_in; [|reflexivity].
  apply sendEmail_later_console.
Qed.

Lemma prop_own_none (o : object) (k : string) :
  own o k = None -> prop o k = JUndefined.
Proof. unfold prop. intros ->. reflexivity. Qed.

Lemma prop_own_some (o : object) (k : string) (v : value) :
  own o k = Some v -> prop o k = v.
Proof. unfold prop. intros ->. reflexivity. Qed.

(** C7. In the record [composeTemporaryLinkEmail] hands to the store, with
    its own callback or that of an exported function,
    [email_info.from] is ['no-reply@nealblim.com'] when the caller's
    [emailInfo] has no [from], and is the caller's [from] when it has one
    that is not [null] or [undefined]. *)
Theorem sender_defaults_to_admin (env : Env) (renderInfo : RenderInfo)
    (emailInfo : object) (done : list value -> M unit)
    (h : list value -> list value) (values : value) :
  (forall args, done args = report (h args)) ->
  In (ECreate values)
     (trace (composeTemporaryLinkEmail env renderInfo emailInfo done)) ->
  adminEmailAddress = "no-reply@nealblim.com"
  /\ (own emailInfo "from" = None ->
      member (member values "email_info") "from" = JStr adminEmailAddress)
  /\ (forall from, own emailInfo "from" = Some from -> eq_null from = false ->
      member (member values "email_info") "from" = from).
Proof.
  intros Hd Hin.
  destruct (created_values _ _ _ _ _ _ Hd Hin) as (HTML & ->).
  split; [reflexivity|]. split.
  - intros Hnone. cbn. rewrite (prop_own_none _ _ Hnone). reflexivity.
  - intros from Hsome Hnn. cbn.
    rewrite (prop_own_some _ _ _ Hsome), Hnn. reflexivity.
Qed.

Lemma sender_defaults_to_admin_witness :
  member (member (temporaryURL_values Sample.all_well Sample.plain_renderInfo
                    Sample.emailInfo_bare (JStr "<html>...</html>"))
            "email_info") "from"
  = JStr "no-reply@nealblim.com"
  /\
  member (member (temporaryURL_values Sample.all_well Sample.plain_renderInfo
                    Sample.emailInfo_full (JStr "<html>...</html>"))
            "email_info") "from"
  = JStr "admin@nealblim.com".
Proof.
  split.
  - refine (proj1 (proj2 (sender_defaults_to_admin Sample.all_well
                            Sample.plain_renderInfo Sample.emailInfo_bare
                            report (fun a => a) _ report_reports _)) eq_refl).
    simpl. right. left. reflexivity.
  - refine (proj2 (proj2 (sender_defaults_to_admin Sample.all_well
                            Sample.plain_renderInfo Sample.emailInfo_full
                            report (fun a => a) _ report_reports _))
              (JStr "admin@nealblim.com") eq_refl eq_refl).
    simpl. right. left. reflexivity.
Defined.

(** C9 as stated fails: for an [emailInfo] without [cc] and [bcc], the
    record handed to the store has both properties, with the value [false];
    reading them does not give [undefined]. *)
Lemma copies_default_to_false_not_absent :
  own Sample.emailInfo_bare "cc" = None
  /\ own Sample.emailInfo_bare "bcc" = None
  /\ trace (composeTemporaryLinkEmail Sample.all_well Sample.plain_renderInfo
              Sample.emailInfo_bare report)
     = [ERender "emails/activate_email" Sample.plain_renderInfo;
        ECreate
          (JObj
             [("id", JNum 7); ("expiration_time", JNum 1596153600000);
              ("url", JStr "/act/abc");
              ("email_info",
               JObj
                 [("from", JStr "no-reply@nealblim.com");
                  ("to", JStr "a@x.com"); ("cc", JBool false);
                  ("bcc", JBool false); ("subject", JStr "Hello");
                  ("html", JStr "<html>...</html>");
                  ("text", JStr "TO DO")])]);
        ESendMail
          (JObj
             [("from", JStr "no-reply@nealblim.com");
              ("to", JStr "a@x.com"); ("cc", JBool false);
              ("bcc", JBool false); ("subject", JStr "Hello");
              ("html", JStr "<html>...</html>");
              ("text", JStr "TO DO")]);
        EDone
          [JNull;
           JObj
             [("id", JNum 7); ("expiration_time", JNum 1596153600000);
              ("url", JStr "/act/abc");
              ("email_info",
               JObj
                 [("from", JStr "no-reply@nealblim.com");
                  ("to", JStr "a@x.com"); ("cc", JBool false);
                  ("bcc", JBool false); ("subject", JStr "Hello");
                  ("html", JStr "<html>...</html>");
                  ("text", JStr "TO DO")])]];
        ELog (JStr "Email sent: 250 OK")]
  /\ (let email_info :=
        member (temporaryURL_values Sample.all_well Sample.plain_renderInfo
                  Sample.emailInfo_bare (JStr "<html>...</html>")) "email_info" in
      member email_info "cc" = JBool false
      /\ member email_info "bcc" = JBool false
      /\ member email_info "cc" <> JUndefined
      /\ member email_info "bcc" <> JUndefined).
Proof.
  repeat split; try reflexivity; cbn; discriminate.
Qed.

(** C9, amended. In the record [composeTemporaryLinkEmail] hands to the
    store, [email_info.cc] is [false] when the caller's [emailInfo] has no
    [cc], or one that is [null] or [undefined], and is the caller's [cc]
    otherwise; the same holds for [bcc]. *)
Theorem copies_default_to_false (env : Env) (renderInfo : RenderInfo)
    (emailInfo : object) (done : list value -> M unit)
    (h : list value -> list value) (values : value) :
  (forall args, done args = report (h args)) ->
  In (ECreate values)
     (trace (composeTemporaryLinkEmail env renderInfo emailInfo done)) ->
  member (member values "email_info") "cc"
  = (if eq_null (prop emailInfo "cc") then JBool false else prop emailInfo "cc")
  /\
  member (member values "email_info") "bcc"
  = (if eq_null (prop emailInfo "bcc") then JBool false else prop emailInfo "bcc")
  /\ (own emailInfo "cc" = None ->
      member (member values "email_info") "cc" = JBool false)
  /\ (own emailInfo "bcc" = None ->
      member (member values "email_info") "bcc" = JBool false).
Proof.
  intros Hd Hin.
  destruct (created_values _ _ _ _ _ _ Hd Hin) as (HTML & ->).
  split; [reflexivity|]. split; [reflexivity|]. split.
  - intros Hnone. cbn. rewrite (prop_own_none _ _ Hnone). reflexivity.
  - intros Hnone. cbn. rewrite (prop_own_none _ _ Hnone). reflexivity.
Qed.

Lemma copies_default_to_false_witness :
  member (member (temporaryURL_values Sample.all_well Sample.plain_renderInfo
                    Sample.emailInfo_bare (JStr "<html>...</html>"))
            "email_info") "cc"
  = JBool false
  /\
  member (member (temporaryURL_values Sample.all_well Sample.plain_renderInfo
                    Sample.emailInfo_full (JStr "<html>...</html>"))
            "email_info") "bcc"
  = JStr "b@x.com".
Proof.
  split.
  - refine (proj1 (copies_default_to_false Sample.all_well
                     Sample.plain_renderInfo Sample.emailInfo_bare
                     report (fun a => a) _ report_reports _)).
    simpl. right. left. reflexivity.
  - refine (proj1 (proj2 (copies_default_to_false Sample.all_well
                            Sample.plain_renderInfo Sample.emailInfo_full
                            report (fun a => a) _ report_reports _))).
    simpl. right. left. reflexivity.
Defined.

(** ** The remaining answers of the store, as traces *)

Lemma create_no_row_trace (env : Env) (renderInfo : RenderInfo)
    (emailInfo : object) (err HTML row : value) (done : list value -> M unit) :
  app_render env (view_of renderInfo) renderInfo = (err, HTML) ->
  truthy err = false ->
  truthy HTML = true ->
  TemporaryURL_create env (temporaryURL_values env renderInfo emailInfo HTML)
    = Resolved row ->
  truthy row = false ->
  trace (composeTemporaryLinkEmail env renderInfo emailInfo done)
  = [ERender (view_of renderInfo) renderInfo;
     ECreate (temporaryURL_values env renderInfo emailInfo HTML)].
Proof.
  intros Hr He Hh Hc Hrow.
  unfold composeTemporaryLinkEmail. cbv zeta.
  rewrite bind_emit, Hr, He, Hh. cbn [negb].
  rewrite bind_emit, Hc, then_catch_resolved, Hrow. reflexivity.
Qed.

Lemma create_row_trace (env : Env) (renderInfo : RenderInfo)
    (emailInfo : object) (err HTML row : value) (done : list value -> M unit)
    (h : list value -> list value) :
  (forall args, done args = report (h args)) ->
  app_render env (view_of renderInfo) renderInfo = (err, HTML) ->
  truthy err = false ->
  truthy HTML = true ->
  TemporaryURL_create env (temporaryURL_values env renderInfo emailInfo HTML)
    = Resolved row ->
  truthy row = true ->
  trace (composeTemporaryLinkEmail env renderInfo emailInfo done)
  = ([ERender (view_of renderInfo) renderInfo;
      ECreate (temporaryURL_values env renderInfo emailInfo HTML);
      ESendMail (member row "email_info");
      EDone (h [JNull; row])]
     ++ later (sendEmail env (member row "email_info")))%list.
Proof.
  intros Hd Hr He Hh Hc Hrow.
  unfold composeTemporaryLinkEmail. cbv zeta.
  rewrite bind_emit, Hr, He, Hh. cbn [negb].
  rewrite bind_emit, Hc, then_catch_resolved, Hrow.
  rewrite (get_truthy _ _ Hrow), bind_ret, sendEmail_eq, Hd.
  cbn. rewrite app_nil_r. reflexivity.
Qed.

(** The run of [sendResetEmail], by what the user store answered. *)
Lemma reset_cases (env : Env) (info : object) :
  (exists e,
     User_findOne env (findOne_query info) = Rejected e
     /\ trace (sendResetEmail env info report)
        = [EFindOne (findOne_query info); EUnhandledRejection e])
  \/ (exists user,
        User_findOne env (findOne_query info) = Resolved user
        /\ truthy user = false
        /\ trace (sendResetEmail env info report)
           = [EFindOne (findOne_query info);
              EUnhandledRejection (ReferenceError "err is not defined")])
  \/ (exists user,
        User_findOne env (findOne_query info) = Resolved user
        /\ truthy user = true
        /\ truthy (activated user) = false
        /\ trace (sendResetEmail env info report)
           = [EFindOne (findOne_query info);
              EDone [JNull; JBool false;
                     JObj [("message",
                            JStr "You must activate your account first.")]]])
  \/ (exists user,
        User_findOne env (findOne_query info) = Resolved user
        /\ truthy user = true
        /\ truthy (activated user) = true
        /\ trace (sendResetEmail env info report)
           = EFindOne (findOne_query info)
             :: trace (composeTemporaryLinkEmail env (reset_renderInfo info user)
                         (reset_emailInfo info) (forward report))).
Proof.
  destruct (User_findOne env (findOne_query info)) as [user|e] eqn:Hu.
  2:{ left. exists e. split; [reflexivity|].
      rewrite (reset_lookup_rejected _ _ _ Hu). reflexivity. }
  destruct (truthy user) eqn:Ht.
  2:{ right; left. exists user. repeat split; auto.
      rewrite (reset_no_user _ _ _ Hu Ht). reflexivity. }
  destruct (truthy (activated user)) eqn:Ha.
  - right; right; right. exists user. repeat split; auto.
    apply (reset_proceeds_trace _ _ _ Hu Ht Ha).
  - right; right; left. exists user. repeat split; auto.
    rewrite (reset_not_activated _ _ _ Hu Ht Ha). reflexivity.
Qed.

(** ** How often the callback and the collaborators are called *)

(** What the completion of a send leaves on the console does not count for
    an observation that ignores the console. *)
Lemma filter_run (p : Event -> bool) (l later : list Event) :
  (forall ev, is_console ev = true -> p ev = false) ->
  forallb is_console later = true ->
  filter p (trace (mkM (Normal tt) l later)) = filter p l.
Proof.
  intros Hp Hl. rewrite trace_mkM, filter_app, (filter_console p later Hp Hl).
  apply app_nil_r.
Qed.

Lemma console_not_done (ev : Event) : is_console ev = true -> is_done ev = false.
Proof. destruct ev; cbn; congruence. Qed.

Lemma console_not_render (ev : Event) : is_console ev = true -> is_render ev = false.
Proof. destruct ev; cbn; congruence. Qed.

Lemma console_not_create (ev : Event) : is_console ev = true -> is_create ev = false.
Proof. destruct ev; cbn; congruence. Qed.

Lemma console_not_sendMail (ev : Event) : is_console ev = true -> is_sendMail ev = false.
Proof. destruct ev; cbn; congruence. Qed.

Lemma console_not_audible (ev : Event) : is_console ev = true -> audible ev = false.
Proof. destruct ev; cbn; congruence. Qed.

(** In a run of [composeTemporaryLinkEmail] each of the four kinds of call
    happens at most once. *)
Lemma compose_counts (env : Env) (renderInfo : RenderInfo)
    (emailInfo : object) (done : list value -> M unit)
    (h : list value -> list value) :
  (forall args, done args = report (h args)) ->
  let t := trace (composeTemporaryLinkEmail env renderInfo emailInfo done) in
  (List.length (filter is_done t) <= 1)%nat
  /\ (List.length (filter is_render t) <= 1)%nat
  /\ (List.length (filter is_create t) <= 1)%nat
  /\ (List.length (filter is_sendMail t) <= 1)%nat.
Proof.
  intros Hd t. subst t.
  pose proof (compose_cases env renderInfo emailInfo done h Hd) as P.
  remember (composeTemporaryLinkEmail env renderInfo emailInfo done) as c.
  destruct P;
    rewrite (filter_run is_done), (filter_run is_render),
      (filter_run is_create), (filter_run is_sendMail);
    try apply sendEmail_later_console; try reflexivity;
    auto using console_not_done, console_not_render, console_not_create,
      console_not_sendMail;
    cbn; repeat split; repeat constructor.
Qed.

(** X1. In every run of [composeTemporaryLinkEmail], [sendActivationEmail]
    and [sendResetEmail] the caller's callback is called at most once. *)
Theorem callback_called_at_most_once (env : Env) (renderInfo : RenderInfo)
    (emailInfo info : object) :
  (List.length (filter is_done
             (trace (composeTemporaryLinkEmail env renderInfo emailInfo report)))
   <= 1)%nat
  /\ (List.length (filter is_done (trace (sendActivationEmail env info report)))
      <= 1)%nat
  /\ (List.length (filter is_done (trace (sendResetEmail env info report)))
      <= 1)%nat.
Proof.
  split; [|split].
  - apply (compose_counts env _ _ _ _ report_reports).
  - rewrite activation_is_compose.
    apply (compose_counts env _ _ _ _ forward_reports).
  - destruct (reset_cases env info)
      as [(e & _ & ->) | [(user & _ & _ & ->) | [(user & _ & _ & _ & ->)
         | (user & _ & _ & _ & ->)]]];
      [cbn; repeat constructor ..|].
    change (filter is_done (EFindOne (findOne_query info) :: ?l))
      with (filter is_done l).
    apply (compose_counts env _ _ _ _ forward_reports).
Qed.

(** X2. In every run of [sendActivationEmail] and of [sendResetEmail] the
    renderer, the store's [create] and the transport's [sendMail] are each
    called at most once. *)
Theorem collaborators_called_at_most_once (env : Env) (info : object) :
  ((List.length (filter is_render (trace (sendActivationEmail env info report))) <= 1)%nat
   /\ (List.length (filter is_create (trace (sendActivationEmail env info report))) <= 1)%nat
   /\ (List.length (filter is_sendMail (trace (sendActivationEmail env info report))) <= 1)%nat)
  /\
  ((List.length (filter is_render (trace (sendResetEmail env info report))) <= 1)%nat
   /\ (List.length (filter is_create (trace (sendResetEmail env info report))) <= 1)%nat
   /\ (List.length (filter is_sendMail (trace (sendResetEmail env info report))) <= 1)%nat).
Proof.
  split.
  - rewrite activation_is_compose.
    apply (compose_counts env _ _ _ _ forward_reports).
  - destruct (reset_cases env info)
      as [(e & _ & ->) | [(user & _ & _ & ->) | [(user & _ & _ & _ & ->)
         | (user & _ & _ & _ & ->)]]];
      [cbn; repeat split; repeat constructor ..|].
    change (filter is_render (EFindOne (findOne_query info) :: ?l))
      with (filter is_render l).
    change (filter is_create (EFindOne (findOne_query info) :: ?l))
      with (filter is_create l).
    change (filter is_sendMail (EFindOne (findOne_query info) :: ?l))
      with (filter is_sendMail l).
    apply (compose_counts env _ _ _ _ forward_reports).
Qed.

(** ** The user lookup, continued *)

(** X3. When the lookup of the user rejects, the run of [sendResetEmail]
    ends there: the rejection has no handler, nothing is rendered, stored or
    sent, and the caller's callback is not called. *)
Theorem reset_lookup_rejection_unreported (env : Env) (info : object)
    (e : value) :
  User_findOne env (findOne_query info) = Rejected e ->
  trace (sendResetEmail env info report)
  = [EFindOne (findOne_query info); EUnhandledRejection e]
  /\ filter is_done (trace (sendResetEmail env info report)) = [].
Proof.
  intros Hu. rewrite (reset_lookup_rejected _ _ _ Hu). split; reflexivity.
Qed.

Lemma reset_lookup_rejection_unreported_witness :
  trace (sendResetEmail Sample.lookup_rejects Sample.ann report)
  = [EFindOne (JObj [("where", JObj [("login_key", JStr "a@x.com")])]);
     EUnhandledRejection (JStr "connect ECONNREFUSED")].
Proof.
  exact (proj1 (reset_lookup_rejection_unreported Sample.lookup_rejects
                  Sample.ann (JStr "connect ECONNREFUSED") eq_refl)).
Defined.





(** ** What is persisted *)

Lemma created_after_render (env : Env) (renderInfo : RenderInfo)
    (emailInfo : object) (done : list value -> M unit)
    (h : list value -> list value) (values : value) :
  (forall args, done args = report (h args)) ->
  In (ECreate values)
     (trace (composeTemporaryLinkEmail env renderInfo emailInfo done)) ->
  exists err HTML,
    app_render env (view_of renderInfo) renderInfo = (err, HTML)
    /\ truthy err = false
    /\ truthy HTML = true
    /\ values = temporaryURL_values env renderInfo emailInfo HTML.
Proof.
  intros Hd.
  pose proof (compose_cases env renderInfo emailInfo done h Hd) as P.
  remember (composeTemporaryLinkEmail env renderInfo emailInfo done) as c.
  destruct P as [err HTML Hr He | err HTML Hr He Hh | err HTML e Hr He Hh Hc
                | err HTML row Hr He Hh Hc Hf | err HTML row Hr He Hh Hc Ht];
    rewrite trace_mkM; intros Hin; in_cases Hin;
    try (injection Hin as <-; exists err, HTML; auto).
  exfalso. revert Hin. apply console_not_in; [|reflexivity].
  apply sendEmail_later_console.
Qed.

(** X5. A record reaches the store only after the renderer returned, without
    an error, a truthy page; the record's [email_info] then holds that page,
    converted to a string, as [html], and the caller's [to], [subject] and
    [text] unchanged.  A page that is a string is stored as it is. *)
Theorem persisted_only_with_rendered_page (env : Env)
    (renderInfo : RenderInfo) (emailInfo : object)
    (done : list value -> M unit) (h : list value -> list value)
    (values : value) :
  (forall args, done args = report (h args)) ->
  In (ECreate values)
     (trace (composeTemporaryLinkEmail env renderInfo emailInfo done)) ->
  exists err HTML,
    app_render env (view_of renderInfo) renderInfo = (err, HTML)
    /\ truthy err = false
    /\ truthy HTML = true
    /\ member (member values "email_info") "html" = JStr (ToString HTML)
    /\ (forall page, HTML = JStr page ->
        member (member values "email_info") "html" = JStr page)
    /\ member (member values "email_info") "to" = prop emailInfo "to"
    /\ member (member values "email_info") "subject" = prop emailInfo "subject"
    /\ member (member values "email_info") "text" = prop emailInfo "text".
Proof.
  intros Hd Hin.
  destruct (created_after_render _ _ _ _ _ _ Hd Hin)
    as (err & HTML & Hr & He & Hh & ->).
  exists err, HTML. repeat split; auto.
  intros page ->. reflexivity.
Qed.

Lemma persisted_only_with_rendered_page_witness :
  exists values,
    In (ECreate values)
       (trace (composeTemporaryLinkEmail Sample.all_well Sample.plain_renderInfo
                 Sample.emailInfo_full report))
    /\ member (member values "email_info") "html" = JStr "<html>...</html>"
    /\ member (member values "email_info") "to" = JStr "a@x.com".
Proof.
  pose (values := temporaryURL_values Sample.all_well Sample.plain_renderInfo
                    Sample.emailInfo_full (JStr "<html>...</html>")).
  assert (Hin : In (ECreate values)
                  (trace (composeTemporaryLinkEmail Sample.all_well
                            Sample.plain_renderInfo Sample.emailInfo_full report))).
  { simpl. right. left. reflexivity. }
  destruct (persisted_only_with_rendered_page Sample.all_well
              Sample.plain_renderInfo Sample.emailInfo_full report
              (fun a => a) values report_reports Hin)
    as (err & HTML & _ & _ & _ & _ & _ & Hto & _).
  exists values. split; [exact Hin|]. split; [reflexivity | exact Hto].
Defined.

(** X6. Whatever the request holds, the record [sendActivationEmail] hands
    to the store is keyed by the request's [id] and [url], expires 86,400,000
    ms after the reading of the clock, which is later than that reading, and
    its message goes from ['no-reply@nealblim.com'] to the request's
    [recipientAddress], with [cc] and [bcc] [false]: a [from], [cc] or [bcc]
    of the request is not used. *)
Theorem activation_record (env : Env) (info : object) (values : value) :
  In (ECreate values) (trace (sendActivationEmail env info report)) ->
  member values "id" = prop info "id"
  /\ member values "url" = prop info "url"
  /\ (exists t, member values "expiration_time" = JNum t
                /\ t = Date_now env + 86400000 /\ Date_now env < t)
  /\ member (member values "email_info") "from" = JStr "no-reply@nealblim.com"
  /\ member (member values "email_info") "to" = prop info "recipientAddress"
  /\ member (member values "email_info") "cc" = JBool false
  /\ member (member values "email_info") "bcc" = JBool false
  /\ member (member values "email_info") "subject"
     = JStr ("Welcome to nealblim.com " ++ ToString (prop info "userName") ++ "!")
  /\ member (member values "email_info") "text" = JStr "TO DO".
Proof.
  rewrite activation_is_compose. intros Hin.
  destruct (created_values _ _ _ _ _ _ forward_reports Hin) as (HTML & ->).
  repeat split.
  exists (Date_now env + 86400000). repeat split.
  apply Z.lt_add_pos_r. reflexivity.
Qed.

Lemma activation_record_witness :
  exists values,
    In (ECreate values)
       (trace (sendActivationEmail Sample.all_well Sample.ann_with_sender report))
    /\ member (member values "email_info") "from" = JStr "no-reply@nealblim.com"
    /\ member (member values "email_info") "cc" = JBool false.
Proof.
  pose (values := temporaryURL_values Sample.all_well
                    (activation_renderInfo Sample.ann_with_sender)
                    (activation_emailInfo Sample.ann_with_sender)
                    (JStr "<html>...</html>")).
  assert (Hin : In (ECreate values)
                  (trace (sendActivationEmail Sample.all_well
                            Sample.ann_with_sender report))).
  { simpl. right. left. reflexivity. }
  destruct (activation_record Sample.all_well Sample.ann_with_sender values Hin)
    as (_ & _ & _ & Hfrom & _ & Hcc & _).
  exists values. split; [exact Hin|]. split; [exact Hfrom | exact Hcc].
Defined.

(** X7. A record [sendResetEmail] hands to the store belongs to a user the
    lookup found: it is keyed by that user's [id], not by an [id] of the
    request, and by the request's [url]; it expires 7,200,000 ms after the
    reading of the clock, and its message goes from
    ['no-reply@nealblim.com'] to the request's [recipientAddress]. *)
Theorem reset_record (env : Env) (info : object) (values : value) :
  In (ECreate values) (trace (sendResetEmail env info report)) ->
  exists user,
    User_findOne env (findOne_query info) = Resolved user
    /\ truthy user = true
    /\ member values "id" = member user "id"
    /\ member values "url" = prop info "url"
    /\ (exists t, member values "expiration_time" = JNum t
                  /\ t = Date_now env + 7200000 /\ Date_now env < t)
    /\ member (member values "email_info") "from" = JStr "no-reply@nealblim.com"
    /\ member (member values "email_info") "to" = prop info "recipientAddress"
    /\ member (member values "email_info") "cc" = JBool false
    /\ member (member values "email_info") "bcc" = JBool false
    /\ member (member values "email_info") "subject"
       = JStr "nealblim.com -- Reset your Password"
    /\ member (member values "email_info") "text" = JStr "TO DO".
Proof.
  intros Hin.
  destruct (reset_cases env info)
    as [(e & _ & E) | [(user & _ & _ & E) | [(user & _ & _ & _ & E)
       | (user & Hu & Ht & Ha & E)]]];
    rewrite E in Hin; try (in_cases Hin; fail).
  destruct Hin as [Hin|Hin]; [discriminate Hin|].
  destruct (created_values _ _ _ _ _ _ forward_reports Hin) as (HTML & ->).
  exists user. repeat split; auto.
  exists (Date_now env + 7200000). repeat split.
  apply Z.lt_add_pos_r. reflexivity.
Qed.

Lemma reset_record_witness :
  exists values,
    In (ECreate values)
       (trace (sendResetEmail Sample.all_well Sample.ann_with_sender report))
    /\ prop Sample.ann_with_sender "id" = JNum 1
    /\ member values "id" = JNum 7.
Proof.
  pose (values := temporaryURL_values Sample.all_well
                    (reset_renderInfo Sample.ann_with_sender Sample.ann_user)
                    (reset_emailInfo Sample.ann_with_sender)
                    (JStr "<html>...</html>")).
  assert (Hin : In (ECreate values)
                  (trace (sendResetEmail Sample.all_well
                            Sample.ann_with_sender report))).
  { simpl. right. right. left. reflexivity. }
  destruct (reset_record Sample.all_well Sample.ann_with_sender values Hin)
    as (user & Hu & _ & Hid & _).
  exists values. split; [exact Hin|]. split; [reflexivity|].
  injection Hu as <-. exact Hid.
Defined.

(** ** What the caller can be told *)

Lemma forwarded_calls (env : Env) (renderInfo : RenderInfo)
    (emailInfo : object) (args : list value) :
  In (EDone args)
     (trace (composeTemporaryLinkEmail env renderInfo emailInfo (forward report))) ->
  (exists err HTML,
     app_render env (view_of renderInfo) renderInfo = (err, HTML)
     /\ truthy err = true /\ args = [err])
  \/ args = [JNull; JBool false]
  \/ (exists values row,
        TemporaryURL_create env values = Resolved row
        /\ truthy row = true /\ args = [JNull; row]).
Proof.
  pose proof (compose_cases env renderInfo emailInfo _ forwarded forward_reports) as P.
  remember (composeTemporaryLinkEmail env renderInfo emailInfo (forward report)) as c.
  destruct P as [err HTML Hr He | err HTML Hr He Hh | err HTML e Hr He Hh Hc
                | err HTML row Hr He Hh Hc Hf | err HTML row Hr He Hh Hc Ht];
    rewrite trace_mkM; intros Hin.
  - rewrite (forwarded_error _ He) in Hin. in_cases Hin.
    injection Hin as <-. left. eauto.
  - in_cases Hin. injection Hin as <-. right; left. reflexivity.
  - in_cases Hin. injection Hin as <-. right; left. reflexivity.
  - in_cases Hin.
  - rewrite (forwarded_row _ Ht) in Hin. in_cases Hin.
    + injection Hin as <-. right; right. eauto.
    + exfalso. revert Hin. apply console_not_in; [|reflexivity].
      apply sendEmail_later_console.
Qed.

(** X8. The callback of the caller of [sendActivationEmail] is called in
    one of three ways only: with the renderer's error alone, with
    [(null, false)], or with [null] and a row the store resolved with.  An
    error of the store or of the transport is never among the arguments, and
    there is never a third argument. *)
Theorem activation_callback_arguments (env : Env) (info : object)
    (args : list value) :
  In (EDone args) (trace (sendActivationEmail env info report)) ->
  (exists err HTML,
     app_render env (view_of (activation_renderInfo info))
       (activation_renderInfo info) = (err, HTML)
     /\ truthy err = true /\ args = [err])
  \/ args = [JNull; JBool false]
  \/ (exists values row,
        TemporaryURL_create env values = Resolved row
        /\ truthy row = true /\ args = [JNull; row]).
Proof.
  rewrite activation_is_compose. apply forwarded_calls.
Qed.

Lemma activation_callback_arguments_witness :
  exists values row,
    TemporaryURL_create Sample.send_fails values = Resolved row
    /\ truthy row = true
    /\ In (EDone [JNull; row])
          (trace (sendActivationEmail Sample.send_fails Sample.ann report)).
Proof.
  pose (values := temporaryURL_values Sample.send_fails
                    (activation_renderInfo Sample.ann)
                    (activation_emailInfo Sample.ann)
                    (JStr "<html>...</html>")).
  assert (Hin : In (EDone [JNull; values])
                  (trace (sendActivationEmail Sample.send_fails Sample.ann report))).
  { simpl. do 3 right. left. reflexivity. }
  destruct (activation_callback_arguments Sample.send_fails Sample.ann
              [JNull; values] Hin)
    as [(err & HTML & Hr & He & E) | [E | (values' & row & Hc & Ht & E)]].
  - discriminate E.
  - discriminate E.
  - exists values', row. split; [exact Hc|]. split; [exact Ht|].
    rewrite <- E. exact Hin.
Defined.

(** X9. The callback of the caller of [sendResetEmail] is called in one of
    four ways only: the three of [sendActivationEmail], and
    [(null, false, {message: "You must activate your account first."})],
    the only call with a third argument. *)
Theorem reset_callback_arguments (env : Env) (info : object)
    (args : list value) :
  In (EDone args) (trace (sendResetEmail env info report)) ->
  (exists user err HTML,
     User_findOne env (findOne_query info) = Resolved user
     /\ app_render env (view_of (reset_renderInfo info user))
          (reset_renderInfo info user) = (err, HTML)
     /\ truthy err = true /\ args = [err])
  \/ args = [JNull; JBool false]
  \/ (exists values row,
        TemporaryURL_create env values = Resolved row
        /\ truthy row = true /\ args = [JNull; row])
  \/ args = [JNull; JBool false;
             JObj [("message", JStr "You must activate your account first.")]].
Proof.
  intros Hin.
  destruct (reset_cases env info)
    as [(e & _ & E) | [(user & _ & _ & E) | [(user & _ & _ & _ & E)
       | (user & Hu & Ht & Ha & E)]]];
    rewrite E in Hin.
  - in_cases Hin.
  - in_cases Hin.
  - in_cases Hin. injection Hin as <-. do 3 right. reflexivity.
  - destruct Hin as [Hin|Hin]; [discriminate Hin|].
    destruct (forwarded_calls _ _ _ _ Hin)
      as [(err & HTML & Hr & He & ->) | [-> | (values & row & Hc & Hrow & ->)]].
    + left. eauto 8.
    + right; left. reflexivity.
    + right; right; left. eauto.
Qed.

Lemma reset_callback_arguments_witness :
  In (EDone [JNull; JBool false])
     (trace (sendResetEmail Sample.store_rejects Sample.ann report)).
Proof.
  assert (Hin : In (EDone [JNull; JBool false])
                  (trace (sendResetEmail Sample.store_rejects Sample.ann report))).
  { simpl. do 3 right. left. reflexivity. }
  destruct (reset_callback_arguments Sample.store_rejects Sample.ann
              [JNull; JBool false] Hin)
    as [(user & err & HTML & _ & _ & _ & E) | [E | [(values & row & _ & Ht & E) | E]]].
  - discriminate E.
  - exact Hin.
  - injection E as <-. discriminate Ht.
  - discriminate E.
Defined.

(** ** When everything succeeds *)

(** X10. When the renderer returns a truthy page without an error and the
    store resolves with a truthy row, the run renders, stores, hands the
    row's [email_info] to the transport and then tells the caller
    [(null, row)], in this order; only the console follows.  This holds for
    [composeTemporaryLinkEmail] and for both exported functions. *)
Theorem issued_when_all_succeed (env : Env) (renderInfo : RenderInfo)
    (emailInfo : object) (err HTML row : value) :
  app_render env (view_of renderInfo) renderInfo = (err, HTML) ->
  truthy err = false ->
  truthy HTML = true ->
  TemporaryURL_create env (temporaryURL_values env renderInfo emailInfo HTML)
    = Resolved row ->
  truthy row = true ->
  let run :=
    ([ERender (view_of renderInfo) renderInfo;
      ECreate (temporaryURL_values env renderInfo emailInfo HTML);
      ESendMail (member row "email_info");
      EDone [JNull; row]]
     ++ later (sendEmail env (member row "email_info")))%list in
  forallb is_console (later (sendEmail env (member row "email_info"))) = true
  /\ trace (composeTemporaryLinkEmail env renderInfo emailInfo report) = run
  /\ (forall info,
        renderInfo = activation_renderInfo info ->
        emailInfo = activation_emailInfo info ->
        trace (sendActivationEmail env info report) = run)
  /\ (forall info user,
        renderInfo = reset_renderInfo info user ->
        emailInfo = reset_emailInfo info ->
        User_findOne env (findOne_query info) = Resolved user ->
        truthy user = true ->
        truthy (activated user) = true ->
        trace (sendResetEmail env info report)
        = EFindOne (findOne_query info) :: run).
Proof.
  intros Hr He Hh Hc Hrow run. subst run.
  split; [apply sendEmail_later_console|]. split; [|split].
  - apply (create_row_trace _ _ _ _ _ _ report (fun a => a) report_reports
             Hr He Hh Hc Hrow).
  - intros info -> ->. rewrite activation_is_compose.
    rewrite (create_row_trace _ _ _ _ _ _ _ forwarded forward_reports
               Hr He Hh Hc Hrow).
    rewrite (forwarded_row _ Hrow). reflexivity.
  - intros info user -> -> Hu Ht Ha.
    rewrite (reset_proceeds_trace _ _ _ Hu Ht Ha).
    rewrite (create_row_trace _ _ _ _ _ _ _ forwarded forward_reports
               Hr He Hh Hc Hrow).
    rewrite (forwarded_row _ Hrow). reflexivity.
Qed.

Lemma issued_when_all_succeed_witness :
  filter is_done (trace (sendResetEmail Sample.user_returning Sample.ann report))
  = [EDone [JNull;
            temporaryURL_values Sample.user_returning
              (reset_renderInfo Sample.ann Sample.returning_user)
              (reset_emailInfo Sample.ann) (JStr "<html>...</html>")]].
Proof.
  rewrite (proj2 (proj2 (proj2
             (issued_when_all_succeed Sample.user_returning
                (reset_renderInfo Sample.ann Sample.returning_user)
                (reset_emailInfo Sample.ann) JNull (JStr "<html>...</html>")
                (temporaryURL_values Sample.user_returning
                   (reset_renderInfo Sample.ann Sample.returning_user)
                   (reset_emailInfo Sample.ann) (JStr "<html>...</html>"))
                eq_refl eq_refl eq_refl eq_refl eq_refl)))
             Sample.ann Sample.returning_user
             eq_refl eq_refl eq_refl eq_refl eq_refl).
  reflexivity.
Defined.

(** ** A callback that throws *)

(** In the handler of the store's promise an exception of the callback is
    caught by the [catch] that follows: the callback is called again, as for
    a failure of the store, after the message has gone to the transport. *)
Lemma compose_callback_throws (env : Env) (renderInfo : RenderInfo)
    (emailInfo : object) (done : list value -> M unit)
    (err HTML row e : value) :
  app_render env (view_of renderInfo) renderInfo = (err, HTML) ->
  truthy err = false ->
  truthy HTML = true ->
  TemporaryURL_create env (temporaryURL_values env renderInfo emailInfo HTML)
    = Resolved row ->
  truthy row = true ->
  outcome (done [JNull; row]) = Throw e ->
  now (composeTemporaryLinkEmail env renderInfo emailInfo done)
  = ([ERender (view_of renderInfo) renderInfo;
      ECreate (temporaryURL_values env renderInfo emailInfo HTML);
      ESendMail (member row "email_info")]
     ++ now (done [JNull; row])
     ++ now (done [JNull; JBool false; JObj [("message", e)]])
     ++ match outcome (done [JNull; JBool false; JObj [("message", e)]]) with
        | Normal _ => []
        | Throw e' => [EUnhandledRejection e']
        end)%list.
Proof.
  intros Hr He Hh Hc Hrow Hthrow.
  unfold composeTemporaryLinkEmail. cbv zeta.
  rewrite bind_emit, Hr, He, Hh. cbn [negb].
  rewrite bind_emit, Hc, then_catch_resolved, Hrow.
  rewrite (get_truthy _ _ Hrow), bind_ret, sendEmail_eq.
  unfold unhandled, try_catch, bind. cbn [outcome now later].
  rewrite Hthrow. cbn [outcome now later].
  destruct (outcome (done [JNull; JBool false; JObj [("message", e)]]));
    cbn [outcome now later app]; rewrite <- ?app_assoc, ?app_nil_r; reflexivity.
Qed.

(** X11. When the callback of the caller of [sendActivationEmail] throws as
    it is told [(null, row)], the message has already gone to the transport,
    and the callback is called a second time, with [(null, false)]; what it
    threw is not passed on.  An exception of the second call is a rejection
    nobody handles. *)
Theorem activation_callback_throws (env : Env) (info : object)
    (done : list value -> M unit) (err HTML row e : value) :
  app_render env (view_of (activation_renderInfo info))
    (activation_renderInfo info) = (err, HTML) ->
  truthy err = false ->
  truthy HTML = true ->
  TemporaryURL_create env
    (temporaryURL_values env (activation_renderInfo info)
       (activation_emailInfo info) HTML) = Resolved row ->
  truthy row = true ->
  outcome (done [JNull; row]) = Throw e ->
  now (sendActivationEmail env info done)
  = ([ERender (view_of (activation_renderInfo info)) (activation_renderInfo info);
      ECreate (temporaryURL_values env (activation_renderInfo info)
                 (activation_emailInfo info) HTML);
      ESendMail (member row "email_info")]
     ++ now (done [JNull; row])
     ++ now (done [JNull; JBool false])
     ++ match outcome (done [JNull; JBool false]) with
        | Normal _ => []
        | Throw e' => [EUnhandledRejection e']
        end)%list.
Proof.
  intros Hr He Hh Hc Hrow Hthrow.
  rewrite activation_is_compose.
  assert (Hthrow' : outcome (forward done [JNull; row]) = Throw e).
  { rewrite forward_forwarded, (forwarded_row _ Hrow). exact Hthrow. }
  rewrite (compose_callback_throws env _ _ (forward done) err HTML row e
             Hr He Hh Hc Hrow Hthrow').
  rewrite !forward_forwarded, (forwarded_row _ Hrow), forwarded_drops_message.
  reflexivity.
Qed.

Lemma activation_callback_throws_witness :
  now (sendActivationEmail Sample.all_well Sample.ann Sample.faulty_callback)
  = [ERender "emails/activate_email" (activation_renderInfo Sample.ann);
     ECreate (temporaryURL_values Sample.all_well
                (activation_renderInfo Sample.ann)
                (activation_emailInfo Sample.ann) (JStr "<html>...</html>"));
     ESendMail (member (temporaryURL_values Sample.all_well
                          (activation_renderInfo Sample.ann)
                          (activation_emailInfo Sample.ann)
                          (JStr "<html>...</html>")) "email_info");
     EDone [JNull;
            temporaryURL_values Sample.all_well
              (activation_renderInfo Sample.ann)
              (activation_emailInfo Sample.ann) (JStr "<html>...</html>")];
     EDone [JNull; JBool false];
     EUnhandledRejection (JStr "callback failed")].
Proof.
  exact (activation_callback_throws Sample.all_well Sample.ann
           Sample.faulty_callback JNull (JStr "<html>...</html>")
           (temporaryURL_values Sample.all_well
              (activation_renderInfo Sample.ann)
              (activation_emailInfo Sample.ann) (JStr "<html>...</html>"))
           (JStr "callback failed")
           eq_refl eq_refl eq_refl eq_refl eq_refl eq_refl).
Defined.

(** ** The transport *)

(** X12. [sendEmail] hands the message to the transport once and leaves
    exactly one mark on the console: the transport's error when it reports
    one, otherwise ['Email sent: '] followed by the [response] of the
    delivery info.  An answer with neither an error nor an info makes the
    logging callback itself fail, uncaught. *)
Theorem sendEmail_logs_once (env : Env) (email_info err info : value) :
  transporter_sendMail env email_info = (err, info) ->
  exists ev,
    trace (sendEmail env email_info) = [ESendMail email_info; ev]
    /\ is_console ev = true
    /\ (truthy err = true -> ev = ELog err)
    /\ (truthy err = false -> eq_null info = false ->
        ev = ELog (JStr ("Email sent: " ++ ToString (member info "response"))))
    /\ (truthy err = false -> eq_null info = true ->
        exists e, ev = EUncaught e).
Proof.
  intros Hs. unfold sendEmail. rewrite Hs.
  destruct (truthy err) eqn:He.
  - exists (ELog err). repeat split; auto; discriminate.
  - destruct info; cbn;
      (eexists; split; [reflexivity|]; repeat split;
       try discriminate; eauto).
Qed.

Lemma sendEmail_logs_once_witness :
  trace (sendEmail Sample.all_well (JObj Sample.emailInfo_full))
  = [ESendMail (JObj Sample.emailInfo_full);
     ELog (JStr "Email sent: 250 OK")].
Proof.
  destruct (sendEmail_logs_once Sample.all_well (JObj Sample.emailInfo_full)
              JNull (JObj [("response", JStr "250 OK")]) eq_refl)
    as (ev & -> & _ & _ & Hev & _).
  rewrite (Hev eq_refl eq_refl). reflexivity.
Defined.

Lemma compose_transport_inaudible (env : Env)
    (sendMail : value -> value * value) (renderInfo : RenderInfo)
    (emailInfo : object) (done : list value -> M unit)
    (h : list value -> list value) :
  (forall args, done args = report (h args)) ->
  filter audible
    (trace (composeTemporaryLinkEmail (with_transport env sendMail)
              renderInfo emailInfo done))
  = filter audible
      (trace (composeTemporaryLinkEmail env renderInfo emailInfo done)).
Proof.
  intros Hd.
  destruct (app_render env (view_of renderInfo) renderInfo)
    as [err HTML] eqn:Hr.
  destruct (truthy err) eqn:He.
  { rewrite (render_error_trace (with_transport env sendMail) _ emailInfo
               _ _ _ _ Hd Hr He).
    rewrite (render_error_trace env _ emailInfo _ _ _ _ Hd Hr He).
    reflexivity. }
  destruct (truthy HTML) eqn:Hh.
  2:{ rewrite (render_empty_trace (with_transport env sendMail) _ emailInfo
                 _ _ _ _ Hd Hr He Hh).
      rewrite (render_empty_trace env _ emailInfo _ _ _ _ Hd Hr He Hh).
      reflexivity. }
  destruct (TemporaryURL_create env
              (temporaryURL_values env renderInfo emailInfo HTML))
    as [row|e] eqn:Hc.
  2:{ rewrite (create_rejected_trace (with_transport env sendMail) _ _
                 _ _ _ _ _ Hd Hr He Hh Hc).
      rewrite (create_rejected_trace env _ _ _ _ _ _ _ Hd Hr He Hh Hc).
      reflexivity. }
  destruct (truthy row) eqn:Hrow.
  - rewrite (create_row_trace (with_transport env sendMail) _ _
               _ _ _ _ _ Hd Hr He Hh Hc Hrow).
    rewrite (create_row_trace env _ _ _ _ _ _ _ Hd Hr He Hh Hc Hrow).
    rewrite !filter_app.
    rewrite (filter_console audible _ console_not_audible
               (sendEmail_later_console (with_transport env sendMail) _)).
    rewrite (filter_console audible _ console_not_audible
               (sendEmail_later_console env _)).
    reflexivity.
  - rewrite (create_no_row_trace (with_transport env sendMail) _ _
               _ _ _ done Hr He Hh Hc Hrow).
    rewrite (create_no_row_trace env _ _ _ _ _ done Hr He Hh Hc Hrow).
    reflexivity.
Qed.

(** X13. What the transport answers changes nothing but the console: with
    any other transport a run of [sendActivationEmail] or of
    [sendResetEmail] makes the same calls of the renderer, the store and the
    transport and tells the caller the same. *)
Theorem transport_answer_inaudible (env : Env)
    (sendMail : value -> value * value) (info : object) :
  filter audible
    (trace (sendActivationEmail (with_transport env sendMail) info report))
  = filter audible (trace (sendActivationEmail env info report))
  /\
  filter audible
    (trace (sendResetEmail (with_transport env sendMail) info report))
  = filter audible (trace (sendResetEmail env info report)).
Proof.
  split.
  - rewrite !activation_is_compose.
    apply (compose_transport_inaudible env sendMail _ _ _ _ forward_reports).
  - destruct (User_findOne env (findOne_query info)) as [user|e] eqn:Hu.
    2:{ rewrite (reset_lookup_rejected (with_transport env sendMail) _ _ Hu).
        rewrite (reset_lookup_rejected env _ _ Hu). reflexivity. }
    destruct (truthy user) eqn:Ht.
    2:{ rewrite (reset_no_user (with_transport env sendMail) _ _ Hu Ht).
        rewrite (reset_no_user env _ _ Hu Ht). reflexivity. }
    destruct (truthy (activated user)) eqn:Ha.
    + rewrite (reset_proceeds_trace (with_transport env sendMail) _ _ Hu Ht Ha).
      rewrite (reset_proceeds_trace env _ _ Hu Ht Ha).
      cbn [filter audible]. f_equal.
      apply (compose_transport_inaudible env sendMail _ _ _ _ forward_reports).
    + rewrite (reset_not_activated (with_transport env sendMail) _ _ Hu Ht Ha).
      rewrite (reset_not_activated env _ _ Hu Ht Ha). reflexivity.
Qed.
